(** * Answer Service ([api/index.js]): shallow embedding and verification

    The repository is one Express module: a cached MongoDB connection, a
    connection middleware in front of four routes (list, upload, delete,
    serve-file), and Multer disk storage under [/tmp/uploads].

    The module is embedded as a state-and-exception monad over a [world]
    that holds everything the handlers read or write: the process
    environment, the module-level [cachedDb] variable, the local disk, the
    documents of the Answer collection and a trace of the side effects
    (console lines, connection attempts, unlink calls).  What the outside
    parties do during one request (the clock, the database driver, the
    kernel on [unlink]) is given to each handler as an [outcome].

    Modelling decisions, all stated where they are made:
    - a request runs to completion before the next one starts (the
      callback of [fs.unlink] runs inside the request that issued it);
      [connectToDatabase] alone is also given in two steps, cut at its
      [await], so that calls of it which overlap can be run;
    - Node's [path.join], Multer's disk storage, the [sort] of a Mongoose
      query and Express' [res.sendFile] are libraries, not repository
      code; each is modelled by the behaviour the handlers rely on;
    - a [request] of the delete route carries the identifier its path
      parameter stands for; [deleteByParam] takes the parameter as the
      route receives it and casts it the way the driver does;
    - Multer passes an error on when the environment makes it
      ([uploadError]) and when the disk does not take the file; Express
      answers such a request itself, with its error page. *)

From Stdlib Require Import ZArith String Ascii DecimalString.
From Stdlib Require Import DecimalZ.
From Stdlib.Strings Require Import Byte.
From stdpp Require Import gmap strings list sorting.

Local Open Scope string_scope.

(** ** JavaScript values that reach the handlers *)

Module Js.

(** A form field, an environment variable or a document attribute:
    [undefined], [null] or a string. *)
Inductive value : Type :=
| Undefined
| Null
| Str (s : string).

(** Truthiness, as used by [if (x)], [!x] and [x && y]. *)
Definition truthy (v : value) : bool :=
  match v with
  | Str s => negb (String.eqb s "")
  | _ => false
  end.

(** The characters of a value that is a string. *)
Definition text (v : value) : string :=
  match v with
  | Str s => s
  | _ => ""
  end.

(** The characters of a printed integer. *)
Definition isNumChar (c : ascii) : bool :=
  Ascii.eqb c "-"%char ||
  (Nat.leb 48 (nat_of_ascii c) && Nat.leb (nat_of_ascii c) 57).

(** [n + ""] for an integral number below 1e21: its decimal digits. *)
Definition numberToString (n : Z) : string :=
  NilZero.string_of_int (Z.to_int n).

End Js.

(** Some character of [s] satisfies [p]. *)
Fixpoint anyChar (p : ascii -> bool) (s : string) : bool :=
  match s with
  | EmptyString => false
  | String c rest => p c || anyChar p rest
  end.

(** ** Node's POSIX [path] module, as far as [path.join] goes *)

Module Path.

Definition isSep (c : ascii) : bool := Ascii.eqb c "/"%char.

(** [s.split("/")]. *)
Fixpoint split (s : string) : list string :=
  match s with
  | EmptyString => [EmptyString]
  | String c rest =>
      if isSep c then EmptyString :: split rest
      else match split rest with
           | [] => [String c EmptyString]
           | seg :: segs => String c seg :: segs
           end
  end.

(** [segs.join("/")]. *)
Fixpoint unsplit (segs : list string) : string :=
  match segs with
  | [] => ""
  | [seg] => seg
  | seg :: rest => seg +:+ "/" +:+ unsplit rest
  end.

Definition isAbsolute (p : string) : bool :=
  match p with
  | String c _ => isSep c
  | EmptyString => false
  end.

Fixpoint endsWithSep (p : string) : bool :=
  match p with
  | EmptyString => false
  | String c EmptyString => isSep c
  | String _ rest => endsWithSep rest
  end.

(** [normalizeString]: resolves [.] and [..] segments.  [res] is the
    stack of the segments kept so far, the last one first. *)
Fixpoint normalizeString (allowAboveRoot : bool) (res segs : list string)
  : list string :=
  match segs with
  | [] => rev res
  | seg :: rest =>
      if String.eqb seg "" || String.eqb seg "." then
        normalizeString allowAboveRoot res rest
      else if String.eqb seg ".." then
        match res with
        | top :: res' =>
            if String.eqb top ".." then
              normalizeString allowAboveRoot
                (if allowAboveRoot then ".." :: res else res) rest
            else normalizeString allowAboveRoot res' rest
        | [] =>
            normalizeString allowAboveRoot
              (if allowAboveRoot then [".."] else []) rest
        end
      else normalizeString allowAboveRoot (seg :: res) rest
  end.

Definition normalize (p : string) : string :=
  if String.eqb p "" then "."
  else
    let absolute := isAbsolute p in
    let trailingSeparator := endsWithSep p in
    let body := unsplit (normalizeString (negb absolute) [] (split p)) in
    if String.eqb body "" then
      if absolute then "/" else if trailingSeparator then "./" else "."
    else
      let body := if trailingSeparator then body +:+ "/" else body in
      if absolute then "/" +:+ body else body.

Definition join (args : list string) : string :=
  match List.filter (fun a => negb (String.eqb a "")) args with
  | [] => "."
  | parts => normalize (unsplit parts)
  end.

(** Segments without the empty ones in front. *)
Fixpoint dropEmpty (segs : list string) : list string :=
  match segs with
  | EmptyString :: rest => dropEmpty rest
  | _ => segs
  end.

(** [path.dirname]: the path without its last segment and without the
    separators around it. *)
Definition dirname (p : string) : string :=
  let top := if isAbsolute p then "/" else "." in
  match dropEmpty (rev (split p)) with
  | [] => top
  | _ :: above =>
      let dir := unsplit (rev (dropEmpty above)) in
      if String.eqb dir "" then top else dir
  end.

(** [p] lies strictly below the directory [dir]. *)
Definition isUnder (dir p : string) : bool :=
  String.prefix (dir +:+ "/") p.

End Path.

(** ** The content type [res.sendFile] infers from a file name *)

Module Mime.

Definition isExtBreak (c : ascii) : bool :=
  Ascii.eqb c "."%char || Ascii.eqb c "/"%char || Ascii.eqb c "\"%char.

(** What follows the last [.], [/] or [\] of the path. *)
Fixpoint afterLastBreak (p : string) : string :=
  match p with
  | EmptyString => EmptyString
  | String c rest =>
      if existsb isExtBreak (list_ascii_of_string rest) then afterLastBreak rest
      else if isExtBreak c then rest
      else p
  end.

Definition toLower (c : ascii) : ascii :=
  let n := nat_of_ascii c in
  if Nat.leb 65 n && Nat.leb n 90 then ascii_of_nat (n + 32) else c.

Fixpoint toLowerCase (s : string) : string :=
  match s with
  | EmptyString => EmptyString
  | String c rest => String (toLower c) (toLowerCase rest)
  end.

Definition extension (p : string) : string :=
  toLowerCase (afterLastBreak p).

Definition default_type : string := "application/octet-stream".

(** An excerpt of the extension table.  The listed entries are those of
    the library; an extension that is not listed here is treated like
    one the library does not know, which is right for some (a name
    without an extension, [passwd]) and wrong for others ([docx]). *)
Definition types : list (string * string) :=
  [ ("txt", "text/plain"); ("html", "text/html"); ("json", "application/json");
    ("pdf", "application/pdf"); ("png", "image/png"); ("gif", "image/gif");
    ("jpg", "image/jpeg"); ("jpeg", "image/jpeg") ].

Fixpoint assoc (k : string) (l : list (string * string)) : option string :=
  match l with
  | [] => None
  | (k', v) :: l' => if String.eqb k k' then Some v else assoc k l'
  end.

Definition lookup (p : string) : string :=
  match assoc (extension p) types with
  | Some t => t
  | None => default_type
  end.

End Mime.

(** ** Data model *)

(** A document of the Answer collection ([answerSchema] plus the [_id]
    the driver assigns).  Every attribute is optional at the storage
    layer, hence a [Js.value]. *)
Record Answer : Type := mkAnswer {
  _id : N;
  title : Js.value;
  fileName : Js.value;
  filePath : Js.value;
  question : Js.value;
  uploadDate : Js.value;
  gsPaper : Js.value;
  source : Js.value;
  mimeType : Js.value
}.

(** An entry of the local disk. *)
Inductive node : Type :=
| Dir
| File (content : list byte).

(** The connection object [mongoose.connect] resolves to. *)
Definition handle : Type := nat.

(** Side effects that leave no mark on the state itself. *)
Inductive event : Type :=
| ConsoleLog (line : string)
| ConsoleError (line detail : string)
| MongooseConnect (uri : string) (connected : bool)
| FsUnlink (path : string).

Record world : Type := mkWorld {
  MONGO_URI : Js.value;          (* process.env.MONGO_URI *)
  cachedDb : option handle;      (* let cachedDb = null *)
  disk : gmap string node;
  collection : list Answer;      (* the stored documents, oldest first *)
  idCounter : N;                 (* source of fresh identifiers *)
  trace : list event             (* oldest first *)
}.

(** What the environment does during one request. *)
Record outcome : Type := mkOutcome {
  now : Z;                               (* Date.now() *)
  connectResult : string + handle;       (* mongoose.connect, if called *)
  findError : option string;             (* find / findById rejects *)
  saveError : option string;             (* save rejects *)
  deleteError : option string;           (* findByIdAndDelete rejects *)
  unlinkError : option string;           (* fs.unlink reports an error *)
  uploadError : option string;           (* Multer reports an error: a limit
                                            of the parser, a broken body,
                                            a write that fails half way *)
  legacyIds : bool                       (* the driver takes a string of 12
                                            bytes for an identifier too *)
}.

(** The parts of a multipart upload request. *)
Record formFields : Type := mkFields {
  f_title : Js.value;
  f_question : Js.value;
  f_uploadDate : Js.value;
  f_gsPaper : Js.value;
  f_source : Js.value
}.

Record filePart : Type := mkFilePart {
  originalname : string;
  mimetype : string;
  payload : list byte
}.

(** [req.file] as Multer's disk storage fills it in. *)
Record multerFile : Type := mkMulterFile {
  mf_originalname : string;
  mf_mimetype : string;
  mf_filename : string;
  mf_path : string
}.

(** A request that matches one of the four routes. *)
Inductive request : Type :=
| GetAnswers
| PostUpload (fields : formFields) (file : option filePart)
| DeleteAnswer (id : N)
| GetUpload (fileName : string).

Inductive body : Type :=
| JsonAnswer (doc : Answer)                          (* res.json(doc) *)
| JsonAnswers (docs : list Answer)                   (* res.json(array) *)
| JsonMessage (message : string) (error : option string)
                                                     (* res.json / res.send of an object *)
| SentString (text : string)                         (* res.send("...") *)
| FileStream (content : list byte) (mediaType : string)
                                                     (* res.sendFile *)
| ErrorPage.                                         (* Express' final handler *)

Record response : Type := mkResponse {
  status : nat;
  payloadOf : body
}.


Definition isJson (b : body) : bool :=
  match b with
  | JsonAnswer _ | JsonAnswers _ | JsonMessage _ _ => true
  | _ => false
  end.

(** ** The monad of the handlers: state, and exceptions carrying a message *)

Definition io (A : Type) : Type := world -> world * (string + A).

Definition ret {A} (a : A) : io A := fun w => (w, inr a).

Definition throw {A} (message : string) : io A := fun w => (w, inl message).

Definition bind {A B} (m : io A) (k : A -> io B) : io B :=
  fun w =>
    match m w with
    | (w', inr a) => k a w'
    | (w', inl e) => (w', inl e)
    end.

(** [try { m } catch (error) { h error }]: what [m] did before it threw
    stays done. *)
Definition tryCatch {A} (m : io A) (h : string -> io A) : io A :=
  fun w =>
    match m w with
    | (w', inr a) => (w', inr a)
    | (w', inl e) => h e w'
    end.

Notation "x <- m ;; k" := (bind m (fun x => k))
  (at level 100, m at next level, right associativity).
Notation "m ;;; k" := (bind m (fun _ => k))
  (at level 100, right associativity).

Definition gets {A} (f : world -> A) : io A := fun w => (w, inr (f w)).

Definition modify (f : world -> world) : io unit := fun w => (f w, inr tt).

Definition emit (e : event) : io unit :=
  modify (fun w => mkWorld (MONGO_URI w) (cachedDb w) (disk w) (collection w)
                           (idCounter w) (trace w ++ [e])).

Definition consoleLog (line : string) : io unit := emit (ConsoleLog line).

Definition consoleError (line detail : string) : io unit :=
  emit (ConsoleError line detail).

Definition setCachedDb (db : handle) : io unit :=
  modify (fun w => mkWorld (MONGO_URI w) (Some db) (disk w) (collection w)
                           (idCounter w) (trace w)).

Definition setDisk (d : gmap string node) : io unit :=
  modify (fun w => mkWorld (MONGO_URI w) (cachedDb w) d (collection w)
                           (idCounter w) (trace w)).

Definition setCollection (c : list Answer) : io unit :=
  modify (fun w => mkWorld (MONGO_URI w) (cachedDb w) (disk w) c
                           (idCounter w) (trace w)).

Definition freshId : io N :=
  fun w => (mkWorld (MONGO_URI w) (cachedDb w) (disk w) (collection w)
                    (N.succ (idCounter w)) (trace w),
            inr (idCounter w)).

(** ** The local disk ([fs]) *)

(** [fs.existsSync(p)].  The disk is looked up under the path as it is
    spelled, and its keys are spelled without a separator at the end. *)
Definition existsSync (p : string) : io bool :=
  d <- gets disk ;;
  ret (match d !! p with Some _ => true | None => false end).

(** The directories on the way to an absolute path, the outermost first. *)
Fixpoint pathsDownTo (base : string) (segs : list string) : list string :=
  match segs with
  | [] => []
  | seg :: rest =>
      let p := base +:+ "/" +:+ seg in
      p :: pathsDownTo p rest
  end.

(** [fs.mkdirSync(p, { recursive: true })]: [None] when a file is in the
    way. *)
Fixpoint mkdirs (ps : list string) (d : gmap string node)
  : option (gmap string node) :=
  match ps with
  | [] => Some d
  | p :: rest =>
      match d !! p with
      | None => mkdirs rest (<[p := Dir]> d)
      | Some Dir => mkdirs rest d
      | Some (File _) => None
      end
  end.

Definition mkdirSyncRecursive (p : string) (d : gmap string node)
  : option (gmap string node) :=
  mkdirs (pathsDownTo "" (List.filter (fun s => negb (String.eqb s ""))
                                      (Path.split p))) d.

(** [fs.unlink(p, callback)] with the callback of the delete route: an
    error is written to the console and goes nowhere else. *)
Definition fsUnlink (o : outcome) (p : string) : io unit :=
  emit (FsUnlink p) ;;;
  match unlinkError o with
  | Some err => consoleError "Error deleting temp file:" err
  | None =>
      d <- gets disk ;;
      match d !! p with
      | Some (File _) => setDisk (delete p d)
      | Some Dir => consoleError "Error deleting temp file:" "EISDIR"
      | None => consoleError "Error deleting temp file:" "ENOENT"
      end
  end.

(** ** Module start-up: lines 22-25 *)

Definition uploadDir : string := Path.join ["/tmp"; "uploads"].

(** Loading the module creates the upload directory when it is absent and
    leaves [cachedDb] at [null].  [docs] and [counter] are the state of
    the document store the process finds. *)
Definition startup (env : Js.value) (d : gmap string node)
    (docs : list Answer) (counter : N) : option world :=
  match (match d !! uploadDir with
         | Some _ => Some d
         | None => mkdirSyncRecursive uploadDir d
         end) with
  | Some d' => Some (mkWorld env None d' docs counter [])
  | None => None
  end.

(** ** Multer disk storage: lines 28-36 *)

(** The multipart parser hands over the base name of the client's file
    name: no [/] in it. *)
Definition baseName (name : string) : Prop :=
  anyChar Path.isSep name = false.

(** A base name that also has no [\] and no NUL byte in it. *)
Definition plainChar (c : ascii) : bool :=
  negb (Ascii.eqb c "/"%char || Ascii.eqb c "\"%char || Ascii.eqb c zero).


Definition generatedName (o : outcome) (part : filePart) : string :=
  Js.numberToString (now o) +:+ "-" +:+ originalname part.

(** A directory is there to hold a new entry. *)
Definition dirExists (d : gmap string node) (p : string) : bool :=
  String.eqb p "/" ||
  match d !! p with
  | Some Dir => true
  | _ => false
  end.

(** The file system takes the last segment of [p] for a name: no NUL
    byte in the path, and at most 255 bytes in the name. *)
Definition nameFits (p : string) : bool :=
  negb (anyChar (fun c => Ascii.eqb c zero) p) &&
  Nat.leb (String.length (List.last (Path.split p) "")) 255.

(** [fs.createWriteStream(p)] can open [p]: the name is one the file
    system takes, the directory of [p] exists and no directory sits at
    [p] itself.  The [destination] of line 30 is a function, so Multer
    creates no directory of its own. *)
Definition canWrite (d : gmap string node) (p : string) : bool :=
  nameFits p &&
  dirExists d (Path.dirname p) &&
  match d !! p with
  | Some Dir => false
  | _ => true
  end.

(** [upload.single("file")]: stores the part, when there is one, under
    the generated name in [uploadDir] and describes it in [req.file].
    An error (thrown here) is what Multer passes to [next]; nothing of
    the request stays on the disk then. *)
Definition uploadSingle (o : outcome) (part : option filePart)
  : io (option multerFile) :=
  match uploadError o with
  | Some err => throw err
  | None =>
      match part with
      | None => ret None
      | Some p =>
          let filename := generatedName o p in
          let finalPath := Path.join [uploadDir; filename] in
          d <- gets disk ;;
          if canWrite d finalPath then
            setDisk (<[finalPath := File (payload p)]> d) ;;;
            ret (Some (mkMulterFile (originalname p) (mimetype p)
                                    filename finalPath))
          else throw "The file could not be written."
      end
  end.

(** ** Connection management: lines 40-59 *)

Definition mongooseConnect (o : outcome) (uri : string) : io handle :=
  match connectResult o with
  | inr db => emit (MongooseConnect uri true) ;;; ret db
  | inl err => emit (MongooseConnect uri false) ;;; throw err
  end.

Definition connectToDatabase (o : outcome) : io handle :=
  cached <- gets cachedDb ;;
  match cached with
  | Some db => ret db
  | None =>
      tryCatch
        (mongoURI <- gets MONGO_URI ;;
         if negb (Js.truthy mongoURI) then
           throw "MONGO_URI environment variable is not set."
         else
           consoleLog "Connecting to MongoDB..." ;;;
           db <- mongooseConnect o (Js.text mongoURI) ;;
           setCachedDb db ;;;
           consoleLog "Successfully connected to MongoDB Atlas!" ;;;
           ret db)
        (fun error =>
           consoleError "MongoDB connection error:" error ;;;
           throw error)
  end.

(** The same call in two steps, cut at the [await] of line 51.  The
    first step runs when the call is made: it answers from the cache
    ([inl]), throws for the missing connection string, or leaves the call
    waiting for [mongoose.connect] on a connection string ([inr]). *)
Definition connectBegin : io (handle + string) :=
  cached <- gets cachedDb ;;
  match cached with
  | Some db => ret (inl db)
  | None =>
      tryCatch
        (mongoURI <- gets MONGO_URI ;;
         if negb (Js.truthy mongoURI) then
           throw "MONGO_URI environment variable is not set."
         else
           consoleLog "Connecting to MongoDB..." ;;;
           ret (inr (Js.text mongoURI)))
        (fun error =>
           consoleError "MongoDB connection error:" error ;;;
           throw error)
  end.

(** The second step runs when [mongoose.connect] has settled: lines
    52-54, or the [catch] of lines 55-58. *)
Definition connectSettle (o : outcome) (uri : string) : io handle :=
  tryCatch
    (db <- mongooseConnect o uri ;;
     setCachedDb db ;;;
     consoleLog "Successfully connected to MongoDB Atlas!" ;;;
     ret db)
    (fun error =>
       consoleError "MongoDB connection error:" error ;;;
       throw error).

(** What the event loop does next: a new call is made, or the
    [mongoose.connect] of the [i]-th waiting call settles. *)
Inductive move : Type :=
| Call
| Settle (i : nat) (o : outcome).

(** Calls of [connectToDatabase] that may overlap.  [waiting] holds the
    connection strings of the calls that wait in line 51, the oldest
    first; the results come in the order in which the calls return. *)
Fixpoint overlap (ms : list move) (w : world) (waiting : list string)
  : world * list string * list (string + handle) :=
  match ms with
  | [] => (w, waiting, [])
  | Call :: rest =>
      match connectBegin w with
      | (w', inr (inl db)) =>
          let '(w'', waiting', rs) := overlap rest w' waiting in
          (w'', waiting', inr db :: rs)
      | (w', inr (inr uri)) => overlap rest w' (waiting ++ [uri])
      | (w', inl e) =>
          let '(w'', waiting', rs) := overlap rest w' waiting in
          (w'', waiting', inl e :: rs)
      end
  | Settle i o :: rest =>
      match waiting !! i with
      | Some uri =>
          match connectSettle o uri w with
          | (w', r) =>
              let '(w'', waiting', rs) := overlap rest w' (delete i waiting) in
              (w'', waiting', r :: rs)
          end
      | None => overlap rest w waiting
      end
  end.

(** ** The Answer model: lines 62-73 and the queries the routes issue *)

(** Order of two sort keys in the store: an absent or null key sorts
    below every string, strings compare byte by byte. *)
Definition keyLeb (a b : Js.value) : bool :=
  match a, b with
  | Js.Str x, Js.Str y => String.leb x y
  | Js.Str _, _ => false
  | _, _ => true
  end.

(** [a] may stand before [b] under [{ uploadDate: -1 }]. *)
Definition newerFirst (a b : Answer) : Prop :=
  keyLeb (uploadDate b) (uploadDate a) = true.

#[global] Instance newerFirst_dec a b : Decision (newerFirst a b).
Proof. unfold newerFirst. apply _. Defined.

(** [Answer.find().sort({ uploadDate: -1 })]. *)
Definition findSorted (o : outcome) : io (list Answer) :=
  match findError o with
  | Some err => throw err
  | None => docs <- gets collection ;; ret (merge_sort newerFirst docs)
  end.

Definition hasId (id : N) (a : Answer) : bool := N.eqb (_id a) id.

(** [Answer.findById(id)] for a parameter that stands for the identifier
    [id]; [null] is [None].  [findError] is a failure of the store. *)
Definition findById (o : outcome) (id : N) : io (option Answer) :=
  match findError o with
  | Some err => throw err
  | None => docs <- gets collection ;; ret (List.find (hasId id) docs)
  end.

Fixpoint removeFirst (id : N) (docs : list Answer) : list Answer :=
  match docs with
  | [] => []
  | a :: rest => if hasId id a then rest else a :: removeFirst id rest
  end.

(** [Answer.findByIdAndDelete(id)]. *)
Definition findByIdAndDelete (o : outcome) (id : N) : io unit :=
  match deleteError o with
  | Some err => throw err
  | None => docs <- gets collection ;; setCollection (removeFirst id docs)
  end.

(** [new Answer({ ... })]: the document gets its identifier here. *)
Definition newAnswer (title fileName filePath question uploadDate gsPaper
                      source mimeType : Js.value) : io Answer :=
  id <- freshId ;;
  ret (mkAnswer id title fileName filePath question uploadDate gsPaper
                source mimeType).

(** [doc.save()]. *)
Definition save (o : outcome) (doc : Answer) : io unit :=
  match saveError o with
  | Some err => throw err
  | None => docs <- gets collection ;; setCollection (docs ++ [doc])
  end.

(** ** [res.sendFile] with its default options *)

Definition isDotFile (part : string) : bool :=
  match part with
  | String c (String _ _) => Ascii.eqb c "."%char
  | _ => false
  end.

(** Segments of a path cut at [/] and at [\]. *)
Fixpoint splitBoth (s : string) : list string :=
  match s with
  | EmptyString => [EmptyString]
  | String c rest =>
      if Ascii.eqb c "/"%char || Ascii.eqb c "\"%char
      then EmptyString :: splitBoth rest
      else match splitBoth rest with
           | [] => [String c EmptyString]
           | seg :: segs => String c seg :: segs
           end
  end.

Definition hasNul (p : string) : bool :=
  anyChar (fun c => Ascii.eqb c zero) p.

Definition hasUpSegment (p : string) : bool :=
  existsb (fun seg => String.eqb seg "..") (splitBoth p).

Definition startsWithDot (part : string) : bool :=
  match part with
  | String c _ => Ascii.eqb c "."%char
  | EmptyString => false
  end.

(** Without a [dotfiles] option a path with a dot file among its
    segments is ignored when its last segment starts with a dot. *)
Definition ignoredDotFile (p : string) : bool :=
  let parts := Path.split (Path.normalize p) in
  existsb isDotFile parts && startsWithDot (List.last parts "").

(** An absolute path and no [root] option: a NUL byte is refused with
    400, a [..] segment with 403, a dot file is ignored (404), a missing
    file or a directory ends in Express' 404 page; otherwise the bytes
    of the file go out under the type inferred from its name. *)
Definition sendFile (p : string) : io response :=
  if hasNul p then ret (mkResponse 400 ErrorPage)
  else if hasUpSegment p then ret (mkResponse 403 ErrorPage)
  else if ignoredDotFile p then
    ret (mkResponse 404 ErrorPage)
  else
    d <- gets disk ;;
    match d !! p with
    | Some (File content) =>
        ret (mkResponse 200 (FileStream content (Mime.lookup p)))
    | _ => ret (mkResponse 404 ErrorPage)
    end.

(** ** Routes: lines 78-148 *)

(** [GET /api/answers] *)
Definition getAnswers (o : outcome) : io response :=
  tryCatch
    (answers <- findSorted o ;;
     ret (mkResponse 200 (JsonAnswers answers)))
    (fun error =>
       ret (mkResponse 500 (JsonMessage "Error fetching answers" (Some error)))).

Definition fileAttr (f : multerFile -> string) (reqFile : option multerFile)
  : Js.value :=
  match reqFile with
  | Some file => Js.Str (f file)
  | None => Js.Null
  end.

(** [POST /api/upload].  Multer runs in line 98, in front of the handler
    and outside its [try]: the error it passes to [next] skips the
    handler and reaches Express' own error handler, which answers 500
    with its error page. *)
Definition postUpload (o : outcome) (fields : formFields)
    (part : option filePart) : io response :=
  tryCatch
    (reqFile <- uploadSingle o part ;;
     tryCatch
       (doc <- newAnswer (f_title fields)
                         (fileAttr mf_filename reqFile)
                         (fileAttr mf_path reqFile)
                         (f_question fields)
                         (f_uploadDate fields)
                         (f_gsPaper fields)
                         (f_source fields)
                         (fileAttr mf_mimetype reqFile) ;;
        save o doc ;;;
        ret (mkResponse 201 (JsonAnswer doc)))
       (fun error =>
          ret (mkResponse 500 (JsonMessage "Error uploading answer"
                                           (Some error)))))
    (fun _ => ret (mkResponse 500 ErrorPage)).

(** [DELETE /api/answers/:id] *)
Definition deleteAnswer (o : outcome) (id : N) : io response :=
  tryCatch
    (answer <- findById o id ;;
     match answer with
     | None => ret (mkResponse 404 (SentString "Answer not found"))
     | Some a =>
         (present <- (if Js.truthy (filePath a)
                      then existsSync (Js.text (filePath a))
                      else ret false) ;;
          if present then fsUnlink o (Js.text (filePath a)) else ret tt) ;;;
         findByIdAndDelete o id ;;;
         ret (mkResponse 200 (JsonMessage "Answer deleted successfully" None))
     end)
    (fun error =>
       ret (mkResponse 500 (JsonMessage "Error deleting answer" (Some error)))).

(** [GET /api/uploads/:fileName]; [fileName] is the decoded parameter. *)
Definition getUpload (fileName : string) : io response :=
  let filePath := Path.join [uploadDir; fileName] in
  present <- existsSync filePath ;;
  if present then sendFile filePath
  else ret (mkResponse 404 (SentString
         "File not found. It may have been cleared from temporary storage.")).

Definition route (o : outcome) (req : request) : io response :=
  match req with
  | GetAnswers => getAnswers o
  | PostUpload fields part => postUpload o fields part
  | DeleteAnswer id => deleteAnswer o id
  | GetUpload fileName => getUpload fileName
  end.

(** The middleware of line 78, in front of every route. *)
Definition connectionMiddleware (o : outcome) (next : io response) : io response :=
  tryCatch
    (connectToDatabase o ;;; next)
    (fun error =>
       ret (mkResponse 500 (JsonMessage "Database connection failed" (Some error)))).

Definition app (o : outcome) (req : request) : io response :=
  connectionMiddleware o (route o req).

(** *** The delete route as it receives its parameter *)

Definition hexDigit (c : ascii) : option N :=
  let n := N_of_ascii c in
  if ((48 <=? n) && (n <=? 57))%N then Some (n - 48)%N
  else if ((97 <=? n) && (n <=? 102))%N then Some (n - 87)%N
  else if ((65 <=? n) && (n <=? 70))%N then Some (n - 55)%N
  else None.

Fixpoint hexValue (acc : N) (s : string) : option N :=
  match s with
  | EmptyString => Some acc
  | String c rest =>
      match hexDigit c with
      | Some d => hexValue (16 * acc + d)%N rest
      | None => None
      end
  end.

Fixpoint bytesValue (acc : N) (s : string) : N :=
  match s with
  | EmptyString => acc
  | String c rest => bytesValue (256 * acc + N_of_ascii c)%N rest
  end.

(** The cast of a path parameter to an identifier: 24 hexadecimal
    digits, or, with a driver that still takes them, any 12 bytes.
    Everything else is no identifier. *)
Definition castObjectId (o : outcome) (param : string) : option N :=
  if Nat.eqb (String.length param) 24 then hexValue 0 param
  else if Nat.eqb (String.length param) 12 && legacyIds o
       then Some (bytesValue 0 param)
  else None.

Definition quoted (s : string) : string :=
  String (ascii_of_nat 34) s +:+ String (ascii_of_nat 34) EmptyString.

(** The message of the [CastError] Mongoose rejects with; the statements
    below do not depend on its wording. *)
Definition castError (param : string) : string :=
  "Cast to ObjectId failed for value " +:+ quoted param +:+
  " (type string) at path " +:+ quoted "_id" +:+
  " for model " +:+ quoted "Answer".

(** [DELETE /api/answers/:id] for the decoded path parameter, which is
    never empty.  [Answer.findById(req.params.id)] casts the parameter
    before it asks the store; for a parameter that is no identifier it
    rejects, inside the [try] of line 119. *)
Definition deleteByParam (o : outcome) (param : string) : io response :=
  match castObjectId o param with
  | Some id => deleteAnswer o id
  | None =>
      tryCatch
        (throw (castError param))
        (fun error =>
           ret (mkResponse 500 (JsonMessage "Error deleting answer"
                                            (Some error))))
  end.

Definition appDelete (o : outcome) (param : string) : io response :=
  connectionMiddleware o (deleteByParam o param).

(** Requests served one after the other; the responses in order.  A
    handler that threw past Express would leave [None]. *)
Fixpoint serveAll (reqs : list (outcome * request)) (w : world)
  : world * list (option response) :=
  match reqs with
  | [] => (w, [])
  | (o, req) :: rest =>
      match app o req w with
      | (w', r) =>
          let (w'', rs) := serveAll rest w' in
          (w'', match r with inr resp => Some resp | inl _ => None end :: rs)
      end
  end.

(** Calls of [connectToDatabase] one after the other. *)
Fixpoint connectAll (os : list outcome) (w : world)
  : world * list (string + handle) :=
  match os with
  | [] => (w, [])
  | o :: rest =>
      match connectToDatabase o w with
      | (w', r) => let (w'', rs) := connectAll rest w' in (w'', r :: rs)
      end
  end.

(** Connections established so far. *)
Definition established (t : list event) : nat :=
  List.length (List.filter (fun e => match e with
                                     | MongooseConnect _ true => true
                                     | _ => false
                                     end) t).

(** Calls of [mongoose.connect] that have settled so far. *)
Definition attempts (t : list event) : nat :=
  List.length (List.filter (fun e => match e with
                                     | MongooseConnect _ _ => true
                                     | _ => false
                                     end) t).

(** ** Notions the statements use *)

(** The handlers change the environment variable never, and the other
    parts of the state only as listed here. *)
Definition sameStore (w w' : world) : Prop :=
  MONGO_URI w' = MONGO_URI w /\ disk w' = disk w /\
  collection w' = collection w /\ idCounter w' = idCounter w.

(** While nothing is cached no connection has been established, and
    there is never more than one. *)
Definition connInv (w : world) : Prop :=
  match cachedDb w with
  | None => established (trace w) = 0
  | Some _ => established (trace w) <= 1
  end.

Definition notSet : string := "MONGO_URI environment variable is not set.".

Definition refusal (error : string) : response :=
  mkResponse 500 (JsonMessage "Database connection failed" (Some error)).

(** The state after a request was turned away for the missing
    connection string: one more console line and nothing else. *)
Definition turnedAway (w : world) : world :=
  mkWorld (MONGO_URI w) (cachedDb w) (disk w) (collection w) (idCounter w)
          (trace w ++ [ConsoleError "MongoDB connection error:" notSet]).

(** The status of the answer a handler gave. *)
Definition statusOf (x : world * (string + response)) : option nat :=
  match snd x with
  | inr r => Some (status r)
  | inl _ => None
  end.

(** The document [POST /api/upload] builds. *)
Definition uploaded (o : outcome) (fields : formFields)
    (part : option filePart) (id : N) : Answer :=
  let attr (f : filePart -> string) :=
    match part with
    | Some p => Js.Str (f p)
    | None => Js.Null
    end in
  mkAnswer id (f_title fields)
    (attr (generatedName o))
    (attr (fun p => Path.join [uploadDir; generatedName o p]))
    (f_question fields) (f_uploadDate fields) (f_gsPaper fields)
    (f_source fields)
    (attr mimetype).

(** The disk after Multer has handled the request. *)
Definition stored (o : outcome) (part : option filePart)
    (d : gmap string node) : gmap string node :=
  match part with
  | Some p => <[Path.join [uploadDir; generatedName o p] := File (payload p)]> d
  | None => d
  end.

(** Multer hands the request on to the handler. *)
Definition multerOk (o : outcome) (part : option filePart)
    (d : gmap string node) : bool :=
  match uploadError o with
  | Some _ => false
  | None =>
      match part with
      | Some p => canWrite d (Path.join [uploadDir; generatedName o p])
      | None => true
      end
  end.

(** The answer of Express' own error handler. *)
Definition errorPage : response := mkResponse 500 ErrorPage.

(** The paths [fs.unlink] was called on. *)
Definition unlinked (t : list event) : list string :=
  omap (fun e => match e with FsUnlink p => Some p | _ => None end) t.

Definition notFound : response :=
  mkResponse 404 (SentString "Answer not found").

Definition deleted : response :=
  mkResponse 200 (JsonMessage "Answer deleted successfully" None).

Definition fileNotFound : response :=
  mkResponse 404 (SentString
    "File not found. It may have been cleared from temporary storage.").

(** ** Model registration: line 73 *)

(** A schema object: its identity and the types of its paths. *)
Record schema : Type := mkSchema {
  schemaId : nat;
  schemaPaths : list (string * string)
}.

(** [new mongoose.Schema({ ... })] of lines 62-71; [n] tells the objects
    of different loads of the module apart. *)
Definition answerSchema (n : nat) : schema :=
  mkSchema n
    [ ("title", "String"); ("fileName", "String"); ("filePath", "String");
      ("question", "String"); ("uploadDate", "String"); ("gsPaper", "String");
      ("source", "String"); ("mimeType", "String") ].

(** [mongoose.model(name, s)]: registers the model under a free name,
    hands out the registered one when it was compiled from this very
    schema object, and throws for any other schema. *)
Definition mongooseModel (name : string) (s : schema)
    (models : gmap string schema) : gmap string schema * (string + schema) :=
  match models !! name with
  | None => (<[name := s]> models, inr s)
  | Some s' =>
      if Nat.eqb (schemaId s') (schemaId s) then (models, inr s')
      else (models, inl "OverwriteModelError")
  end.

(** [mongoose.models.Answer || mongoose.model("Answer", answerSchema)],
    evaluated by the [n]-th load of the module. *)
Definition AnswerModel (n : nat) (models : gmap string schema)
  : gmap string schema * (string + schema) :=
  match models !! "Answer" with
  | Some m => (models, inr m)
  | None => mongooseModel "Answer" (answerSchema n) models
  end.

(** ** Further notions the statements use *)

(** Lines 125-129 on their own: the clean-up of the file of a record. *)
Definition cleanUp (o : outcome) (a : Answer) : io unit :=
  present <- (if Js.truthy (filePath a)
              then existsSync (Js.text (filePath a))
              else ret false) ;;
  if present then fsUnlink o (Js.text (filePath a)) else ret tt.

(** A record without a file has no file attribute at all; a record with
    a file has all three, and its path is the join of the upload
    directory and its file name. *)
Definition fileConsistent (a : Answer) : Prop :=
  (fileName a = Js.Null /\ filePath a = Js.Null /\ mimeType a = Js.Null) \/
  (exists name type,
      fileName a = Js.Str name /\
      filePath a = Js.Str (Path.join [uploadDir; name]) /\
      mimeType a = Js.Str type).

(** The identifiers in use are distinct and below the next fresh one. *)
Definition distinctIds (w : world) : Prop :=
  NoDup (List.map _id (collection w)) /\
  forall a, In a (collection w) -> (_id a < idCounter w)%N.

(** Every record carries a date, and no two records the same one. *)
Definition datedApart (docs : list Answer) : Prop :=
  (forall a, In a docs -> exists s, uploadDate a = Js.Str s) /\
  (forall a b, In a docs -> In b docs -> uploadDate a = uploadDate b -> a = b).

Definition isDigit (c : ascii) : bool :=
  Nat.leb 48 (nat_of_ascii c) && Nat.leb (nat_of_ascii c) 57.

(** A string of decimal digits. *)
Definition allDigits (s : string) : Prop :=
  anyChar (fun c => negb (isDigit c)) s = false.

(** ** Sample values for the concrete runs *)

Definition sampleUri : string := "mongodb://db.example/answers".

(** An outcome in which nothing goes wrong at time [t]. *)
Definition calm (t : Z) : outcome :=
  mkOutcome t (inr 1) None None None None None false.

(** The driver cannot reach the store. *)
Definition storeDown (t : Z) : outcome :=
  mkOutcome t (inl "ECONNREFUSED") None None None None None false.

(** [fs.unlink] is refused. *)
Definition unlinkRefused (t : Z) : outcome :=
  mkOutcome t (inr 1) None None None (Some "EPERM") None false.

Definition sampleFields (date : string) : formFields :=
  mkFields (Js.Str "Essay") (Js.Str "Discuss.") (Js.Str date)
           (Js.Str "GS2") (Js.Str "mock").

(** A text file that the client declares as a PDF. *)
Definition notes : filePart :=
  mkFilePart "a.txt" "application/pdf" [x68; x69].

Definition bareDisk : gmap string node :=
  <["/tmp/uploads" := Dir]> (<["/tmp" := Dir]> ∅).

(** The process right after start-up on an empty disk and store. *)
Definition freshWorld (env : Js.value) : world :=
  mkWorld env None bareDisk [] 0 [].

Definition docA : Answer :=
  mkAnswer 0 (Js.Str "Essay") (Js.Str "100-a.txt")
           (Js.Str "/tmp/uploads/100-a.txt") (Js.Str "Discuss.")
           (Js.Str "2024-01-01") (Js.Str "GS2") (Js.Str "mock")
           (Js.Str "application/pdf").

Definition docB : Answer :=
  mkAnswer 1 (Js.Str "Essay") Js.Null Js.Null (Js.Str "Discuss.")
           (Js.Str "2024-02-01") (Js.Str "GS2") (Js.Str "mock") Js.Null.

(** A connected process holding [docA] with its file and [docB]. *)
Definition busyWorld : world :=
  mkWorld (Js.Str sampleUri) (Some 1)
          (<["/tmp/uploads/100-a.txt" := File [x68; x69]]> bareDisk)
          [docA; docB] 2 [].

(** A connected process on a machine with a password file. *)
Definition hostWorld : world :=
  mkWorld (Js.Str sampleUri) (Some 1)
          (<["/etc/passwd" := File [x72; x6f; x6f; x74]]> bareDisk)
          [] 0 [].



(** Nothing goes wrong, and the driver hands out the connection [db]. *)
Definition calmWith (t : Z) (db : handle) : outcome :=
  mkOutcome t (inr db) None None None None None false.

(** Nothing goes wrong, with a driver that takes 12 bytes for an
    identifier. *)
Definition legacyDriver (t : Z) : outcome :=
  mkOutcome t (inr 1) None None None None None true.

(** The 24 digits that stand for the identifier 0. *)
Definition zeroId : string := "000000000000000000000000".


(** The store refuses to save. *)
Definition storeFull (t : Z) : outcome :=
  mkOutcome t (inr 1) None (Some "quota exceeded") None None None false.

(** The store refuses to delete. *)
Definition deleteRejected (t : Z) : outcome :=
  mkOutcome t (inr 1) None None (Some "write conflict") None None false.

(** [busyWorld] with its records stored the other way round. *)
Definition busyWorldReversed : world :=
  mkWorld (Js.Str sampleUri) (Some 1) (disk busyWorld) [docB; docA] 2 [].

(** * Properties *)

Ltac io_unfold :=
  cbv beta iota delta
    [app connectionMiddleware route getAnswers postUpload deleteAnswer getUpload
     connectToDatabase mongooseConnect findSorted findById findByIdAndDelete
     save newAnswer uploadSingle fsUnlink existsSync sendFile fileAttr
     connectBegin connectSettle deleteByParam appDelete
     tryCatch bind ret throw gets modify emit consoleLog consoleError
     setCachedDb setDisk setCollection freshId] in *;
  cbn [MONGO_URI cachedDb disk collection idCounter trace
       mf_filename mf_path mf_mimetype mf_originalname
       status payloadOf fst snd] in *.

Ltac proj_simpl :=
  cbn [MONGO_URI cachedDb disk collection idCounter trace
       status payloadOf fst snd] in *.

(** ** Strings and paths *)

Section StringFacts.

Lemma anyChar_app p a b : anyChar p (a +:+ b) = anyChar p a || anyChar p b.
Proof.
  induction a as [|c a IH]; simpl; [reflexivity|].
  rewrite IH. apply orb_assoc.
Qed.

Lemma anyChar_weaken (p q : ascii -> bool) s :
  (forall c, p c = true -> q c = true) ->
  anyChar q s = false -> anyChar p s = false.
Proof.
  intros Hpq. induction s as [|c s IH]; simpl; [reflexivity|].
  intros H. apply orb_false_iff in H as [Hc Hs].
  rewrite (IH Hs), orb_false_r.
  destruct (p c) eqn:E; [|reflexivity].
  apply Hpq in E. congruence.
Qed.

Lemma append_nonempty_r a b : b <> "" -> a +:+ b <> "".
Proof. destruct a; simpl; [auto | discriminate]. Qed.

Lemma split_nonempty s : Path.split s <> [].
Proof.
  destruct s as [|c s]; simpl; [discriminate|].
  destruct (Path.isSep c); [discriminate|].
  destruct (Path.split s); discriminate.
Qed.

Lemma split_app a b :
  Path.split (a +:+ "/" +:+ b) = (Path.split a ++ Path.split b)%list.
Proof.
  induction a as [|c a IH]; [reflexivity|].
  change (String c a +:+ "/" +:+ b) with (String c (a +:+ "/" +:+ b)).
  cbn [Path.split]. rewrite IH.
  destruct (Path.isSep c); [reflexivity|].
  pose proof (split_nonempty a) as Hne.
  destruct (Path.split a); [congruence | reflexivity].
Qed.

Lemma split_baseName s : baseName s -> Path.split s = [s].
Proof.
  unfold baseName. induction s as [|c s IH]; simpl; [reflexivity|].
  intros H. apply orb_false_iff in H as [Hc Hs].
  rewrite Hc, (IH Hs). reflexivity.
Qed.

Lemma endsWithSep_app a b :
  b <> "" -> Path.endsWithSep (a +:+ b) = Path.endsWithSep b.
Proof.
  intros Hb. induction a as [|c a IH]; [reflexivity|].
  change (String c a +:+ b) with (String c (a +:+ b)).
  cbn [Path.endsWithSep].
  destruct (a +:+ b) eqn:E; [|exact IH].
  exfalso. revert E. apply append_nonempty_r, Hb.
Qed.

Lemma endsWithSep_baseName s : baseName s -> Path.endsWithSep s = false.
Proof.
  unfold baseName. induction s as [|c s IH]; simpl; [reflexivity|].
  intros H. apply orb_false_iff in H as [Hc Hs].
  destruct s; [exact Hc | exact (IH Hs)].
Qed.

Lemma uploadDir_eq : uploadDir = "/tmp/uploads".
Proof. reflexivity. Qed.

(** A path made of the upload directory and a base name that is not
    empty, [.] or [..] is already normal. *)
Lemma normalize_upload name :
  baseName name -> name <> "" -> name <> "." -> name <> ".." ->
  Path.normalize ("/tmp/uploads/" +:+ name) = "/tmp/uploads/" +:+ name.
Proof.
  intros Hbase H0 H1 H2.
  apply String.eqb_neq in H0 as E0; apply String.eqb_neq in H1 as E1;
    apply String.eqb_neq in H2 as E2.
  unfold Path.normalize.
  set (p := "/tmp/uploads/" +:+ name).
  assert (Hends : Path.endsWithSep p = false).
  { unfold p. rewrite (endsWithSep_app "/tmp/uploads/" name) by exact H0.
    apply endsWithSep_baseName, Hbase. }
  assert (Hsplit : Path.split p = [""; "tmp"; "uploads"; name]).
  { unfold p. change ("/tmp/uploads/" +:+ name) with ("/tmp/uploads" +:+ "/" +:+ name).
    rewrite split_app, (split_baseName name Hbase). reflexivity. }
  assert (Habs : Path.isAbsolute p = true) by reflexivity.
  assert (Hp : String.eqb p "" = false) by reflexivity.
  rewrite Hp, Hends, Hsplit, Habs.
  cbn -[String.eqb String.append]. rewrite E0, E1, E2.
  cbn. reflexivity.
Qed.

(** Joining the upload directory with such a name just appends it. *)
Lemma join_uploadDir name :
  baseName name -> name <> "" -> name <> "." -> name <> ".." ->
  Path.join [uploadDir; name] = "/tmp/uploads/" +:+ name.
Proof.
  intros Hbase H0 H1 H2.
  apply String.eqb_neq in H0 as E0.
  rewrite uploadDir_eq. unfold Path.join. cbn [List.filter String.eqb negb].
  rewrite E0. cbn [negb Path.unsplit].
  apply normalize_upload; assumption.
Qed.

Lemma isUnder_uploadDir name :
  Path.isUnder uploadDir ("/tmp/uploads/" +:+ name) = true.
Proof. rewrite uploadDir_eq. unfold Path.isUnder. cbn. destruct name; reflexivity. Qed.



Lemma isNumChar_plain c : Js.isNumChar c = true -> plainChar c = true.
Proof.
  destruct c as [[] [] [] [] [] [] [] []]; cbv; congruence.
Qed.


Lemma string_of_uint_chars d :
  anyChar (fun c => negb (Js.isNumChar c)) (NilEmpty.string_of_uint d) = false.
Proof. induction d; simpl; auto. Qed.

(** A printed integer consists of digits and at most a sign. *)
Lemma numberToString_chars z :
  anyChar (fun c => negb (Js.isNumChar c)) (Js.numberToString z) = false.
Proof.
  unfold Js.numberToString, NilZero.string_of_int, NilZero.string_of_uint.
  destruct (Z.to_int z) as [d|d]; destruct d; simpl;
    try reflexivity; apply string_of_uint_chars.
Qed.

End StringFacts.

(** ** Generated file names *)

Section GeneratedNames.

Variable o : outcome.
Variable part : filePart.

Lemma generatedName_nonempty : generatedName o part <> "".
Proof.
  unfold generatedName. apply append_nonempty_r. discriminate.
Qed.

Lemma generatedName_not_dot : generatedName o part <> ".".
Proof.
  unfold generatedName. intros H.
  assert (E : anyChar (fun c => Ascii.eqb c "-"%char) "." = true).
  { rewrite <- H, !anyChar_app. simpl. apply orb_true_r. }
  discriminate E.
Qed.

Lemma generatedName_not_dotdot : generatedName o part <> "..".
Proof.
  unfold generatedName. intros H.
  assert (E : anyChar (fun c => Ascii.eqb c "-"%char) ".." = true).
  { rewrite <- H, !anyChar_app. simpl. apply orb_true_r. }
  discriminate E.
Qed.



Lemma generatedName_base :
  baseName (originalname part) -> baseName (generatedName o part).
Proof.
  unfold baseName, generatedName. intros H.
  rewrite !anyChar_app, H. simpl.
  rewrite (anyChar_weaken _ (fun c => negb (Js.isNumChar c))).
  - reflexivity.
  - intros c Hc. apply negb_true_iff.
    destruct (Js.isNumChar c) eqn:E; [|reflexivity].
    apply isNumChar_plain in E. unfold plainChar, Path.isSep in *.
    rewrite Hc in E. discriminate E.
  - apply numberToString_chars.
Qed.

(** Where Multer stores a part whose name is a base name. *)
Lemma stored_path :
  baseName (originalname part) ->
  Path.join [uploadDir; generatedName o part]
  = "/tmp/uploads/" +:+ generatedName o part.
Proof.
  intros H. apply join_uploadDir;
    auto using generatedName_base, generatedName_nonempty,
               generatedName_not_dot, generatedName_not_dotdot.
Qed.

End GeneratedNames.

(** ** The route handlers in closed form *)

Section Handlers.

Lemma getAnswers_eq o w :
  getAnswers o w =
  match findError o with
  | None =>
      (w, inr (mkResponse 200
                 (JsonAnswers (merge_sort newerFirst (collection w)))))
  | Some err =>
      (w, inr (mkResponse 500
                 (JsonMessage "Error fetching answers" (Some err))))
  end.
Proof. io_unfold. destruct (findError o); reflexivity. Qed.

Lemma postUpload_eq o fields part w :
  postUpload o fields part w =
  if multerOk o part (disk w) then
    let doc := uploaded o fields part (idCounter w) in
    match saveError o with
    | None =>
        (mkWorld (MONGO_URI w) (cachedDb w) (stored o part (disk w))
                 (collection w ++ [doc]) (N.succ (idCounter w)) (trace w),
         inr (mkResponse 201 (JsonAnswer doc)))
    | Some err =>
        (mkWorld (MONGO_URI w) (cachedDb w) (stored o part (disk w))
                 (collection w) (N.succ (idCounter w)) (trace w),
         inr (mkResponse 500 (JsonMessage "Error uploading answer" (Some err))))
    end
  else (w, inr errorPage).
Proof.
  unfold multerOk, errorPage. io_unfold.
  destruct (uploadError o); [reflexivity|].
  destruct part as [p|]; cbv beta.
  - destruct (canWrite (disk w) (Path.join [uploadDir; generatedName o p]));
      [|reflexivity].
    destruct (saveError o); reflexivity.
  - destruct (saveError o); reflexivity.
Qed.

(** The upload route answers in one of three ways. *)
Lemma postUpload_cases o fields part w :
  (multerOk o part (disk w) = false /\
   postUpload o fields part w = (w, inr errorPage)) \/
  (multerOk o part (disk w) = true /\ saveError o = None /\
   postUpload o fields part w
   = (mkWorld (MONGO_URI w) (cachedDb w) (stored o part (disk w))
              (collection w ++ [uploaded o fields part (idCounter w)])
              (N.succ (idCounter w)) (trace w),
      inr (mkResponse 201
             (JsonAnswer (uploaded o fields part (idCounter w)))))) \/
  (exists err,
     multerOk o part (disk w) = true /\ saveError o = Some err /\
     postUpload o fields part w
     = (mkWorld (MONGO_URI w) (cachedDb w) (stored o part (disk w))
                (collection w) (N.succ (idCounter w)) (trace w),
        inr (mkResponse 500
               (JsonMessage "Error uploading answer" (Some err))))).
Proof.
  rewrite postUpload_eq.
  destruct (multerOk o part (disk w)); [|left; auto].
  right. cbv zeta. destruct (saveError o) as [err|]; [right; eauto|left; auto].
Qed.

(** Without a matching record the handler changes nothing, whatever
    the store answers. *)
Lemma deleteAnswer_missing o id w :
  List.find (hasId id) (collection w) = None ->
  deleteAnswer o id w
  = (w, inr match findError o with
            | None => notFound
            | Some err =>
                mkResponse 500 (JsonMessage "Error deleting answer" (Some err))
            end).
Proof.
  intros H. io_unfold. destruct (findError o); [reflexivity|].
  cbv beta. rewrite H. reflexivity.
Qed.

(** The answer of the delete route, case by case. *)
Lemma deleteAnswer_response o id w :
  exists w',
    deleteAnswer o id w
    = (w', inr match findError o with
               | Some err =>
                   mkResponse 500 (JsonMessage "Error deleting answer" (Some err))
               | None =>
                   match List.find (hasId id) (collection w) with
                   | None => notFound
                   | Some _ =>
                       match deleteError o with
                       | Some err =>
                           mkResponse 500
                             (JsonMessage "Error deleting answer" (Some err))
                       | None => deleted
                       end
                   end
               end).
Proof.
  io_unfold. destruct (findError o); [eexists; reflexivity|]. cbv beta.
  destruct (List.find (hasId id) (collection w)) as [a|];
    [|eexists; reflexivity].
  cbv beta iota.
  destruct (Js.truthy (filePath a)); cbv beta iota;
    [destruct (disk w !! Js.text (filePath a)) as [n|] eqn:El; cbv beta iota;
     [destruct (unlinkError o); cbv beta iota; proj_simpl;
      [|rewrite El; destruct n; cbv beta iota]|]|];
    destruct (deleteError o); eexists; reflexivity.
Qed.

Lemma getUpload_absent fileName w :
  disk w !! Path.join [uploadDir; fileName] = None ->
  getUpload fileName w = (w, inr fileNotFound).
Proof. intros H. io_unfold. rewrite H. reflexivity. Qed.

Lemma getUpload_responds fileName w :
  exists resp, getUpload fileName w = (w, inr resp).
Proof.
  io_unfold. repeat case_match; eauto.
Qed.

End Handlers.

(** ** The connection manager and the middleware *)

Section Connection.

Variable o : outcome.

Lemma connect_cached w db :
  cachedDb w = Some db -> connectToDatabase o w = (w, inr db).
Proof. intros H. io_unfold. rewrite H. reflexivity. Qed.

Lemma connect_frame w w1 r :
  connectToDatabase o w = (w1, r) -> sameStore w w1.
Proof.
  io_unfold. unfold sameStore. intros H.
  repeat case_match; simplify_eq; cbn; auto.
Qed.

Lemma connect_ok_cached w w1 db :
  connectToDatabase o w = (w1, inr db) -> cachedDb w1 = Some db.
Proof.
  io_unfold. intros H.
  repeat case_match; simplify_eq; cbn; auto.
Qed.

Lemma connect_fail_uncached w w1 e :
  connectToDatabase o w = (w1, inl e) ->
  cachedDb w = None /\ cachedDb w1 = None.
Proof.
  io_unfold. intros H.
  repeat case_match; simplify_eq; cbn; auto.
Qed.

(** What a call returns depends on the cache and the connection
    string only. *)
Lemma connect_result_ext w w' :
  cachedDb w = cachedDb w' -> MONGO_URI w = MONGO_URI w' ->
  snd (connectToDatabase o w) = snd (connectToDatabase o w').
Proof.
  io_unfold. intros Hc Hu. rewrite Hc.
  destruct (cachedDb w'); [reflexivity|].
  cbv beta. rewrite Hu.
  destruct (Js.truthy (MONGO_URI w')); [|reflexivity].
  cbn [negb]. destruct (connectResult o); reflexivity.
Qed.

(** No route handler lets an exception escape. *)
Lemma route_responds req w :
  exists w' resp, route o req w = (w', inr resp).
Proof.
  destruct req as [|fields part|id|fileName]; cbn [route].
  - rewrite getAnswers_eq. destruct (findError o); eauto.
  - destruct (postUpload_cases o fields part w)
      as [[_ E]|[(_ & _ & E)|(err & _ & _ & E)]]; rewrite E; eauto.
  - destruct (deleteAnswer_response o id w) as [w' H]. eauto.
  - destruct (getUpload_responds fileName w) as [resp H]. eauto.
Qed.

Lemma app_connected req w w1 db :
  connectToDatabase o w = (w1, inr db) ->
  app o req w = route o req w1.
Proof.
  intros H. unfold app, connectionMiddleware, tryCatch, bind. rewrite H.
  destruct (route_responds req w1) as (w' & resp & E). rewrite E.
  reflexivity.
Qed.

Lemma app_refused req w w1 e :
  connectToDatabase o w = (w1, inl e) ->
  app o req w
  = (w1, inr (mkResponse 500
                (JsonMessage "Database connection failed" (Some e)))).
Proof.
  intros H. unfold app, connectionMiddleware, tryCatch, bind, ret. rewrite H.
  reflexivity.
Qed.

Lemma app_responds req w :
  exists w' resp, app o req w = (w', inr resp).
Proof.
  destruct (connectToDatabase o w) as [w1 [e|db]] eqn:E.
  - rewrite (app_refused _ _ _ _ E). eauto.
  - rewrite (app_connected _ _ _ _ E). apply route_responds.
Qed.

(** A parameter that stands for an identifier is served as the delete
    request for that identifier. *)
Lemma appDelete_cast param id w :
  castObjectId o param = Some id ->
  appDelete o param w = app o (DeleteAnswer id) w.
Proof.
  intros H. unfold appDelete, app, deleteByParam. rewrite H. reflexivity.
Qed.

(** For any other parameter the handler stops at the cast. *)
Lemma appDelete_uncast param w :
  castObjectId o param = None ->
  appDelete o param w
  = (fst (connectToDatabase o w),
     inr match snd (connectToDatabase o w) with
         | inl e => refusal e
         | inr _ =>
             mkResponse 500 (JsonMessage "Error deleting answer"
                                         (Some (castError param)))
         end).
Proof.
  intros H. unfold appDelete, deleteByParam, connectionMiddleware. rewrite H.
  unfold tryCatch, bind, ret, throw, refusal.
  destruct (connectToDatabase o w) as [w1 [e|db]]; reflexivity.
Qed.

End Connection.

(** ** Counting connections *)

Section Counting.

Lemma established_app t1 t2 :
  established (t1 ++ t2)%list = established t1 + established t2.
Proof. unfold established. rewrite List.filter_app, List.length_app. reflexivity. Qed.

Lemma attempts_app t1 t2 :
  attempts (t1 ++ t2)%list = attempts t1 + attempts t2.
Proof. unfold attempts. rewrite List.filter_app, List.length_app. reflexivity. Qed.

(** A route handler leaves the cached handle alone and connects to
    nothing. *)
Lemma route_frame o req w w' r :
  route o req w = (w', r) ->
  cachedDb w' = cachedDb w /\
  established (trace w') = established (trace w) /\
  attempts (trace w') = attempts (trace w).
Proof.
  destruct req; io_unfold; intros H;
    repeat case_match; simplify_eq; proj_simpl;
    rewrite ?established_app, ?attempts_app; cbn; auto with lia.
Qed.

Lemma connect_connInv o w w1 r :
  connInv w -> connectToDatabase o w = (w1, r) -> connInv w1.
Proof.
  unfold connInv. io_unfold. intros Hinv H.
  repeat case_match; simplify_eq; proj_simpl;
    rewrite ?established_app; cbn; lia.
Qed.

Lemma app_connInv o req w w' r :
  connInv w -> app o req w = (w', r) -> connInv w'.
Proof.
  intros Hinv H.
  destruct (connectToDatabase o w) as [w1 [e|db]] eqn:E.
  - rewrite (app_refused _ _ _ _ _ E) in H. simplify_eq.
    eapply connect_connInv; eauto.
  - rewrite (app_connected _ _ _ _ _ E) in H.
    apply (connect_connInv _ _ _ _ Hinv) in E.
    apply route_frame in H as (Hc & He & _).
    unfold connInv in *. rewrite Hc, He. exact E.
Qed.

Lemma serveAll_connInv reqs w :
  connInv w -> connInv (fst (serveAll reqs w)).
Proof.
  revert w. induction reqs as [|[o req] reqs IH]; intros w Hinv; [exact Hinv|].
  cbn [serveAll]. destruct (app o req w) as [w' r] eqn:E.
  specialize (IH w' (app_connInv _ _ _ _ _ Hinv E)).
  destruct (serveAll reqs w') as [w'' rs]. exact IH.
Qed.

Lemma connInv_bound w : connInv w -> established (trace w) <= 1.
Proof. unfold connInv. destruct (cachedDb w); lia. Qed.

Lemma startup_fresh env d docs c w0 :
  startup env d docs c = Some w0 ->
  MONGO_URI w0 = env /\ cachedDb w0 = None /\ collection w0 = docs /\
  idCounter w0 = c /\ trace w0 = [].
Proof.
  unfold startup. intros H. repeat case_match; simplify_eq; cbn; auto.
Qed.

Lemma connectAll_cached db os w :
  cachedDb w = Some db ->
  connectAll os w = (w, List.map (fun _ => inr db) os).
Proof.
  intros Hc. induction os as [|o os IH]; [reflexivity|].
  cbn [connectAll List.map]. rewrite (connect_cached o w db Hc), IH.
  reflexivity.
Qed.

End Counting.

(** ** A process without a connection string *)

Section Unconfigured.

Lemma connect_unset o w :
  cachedDb w = None -> Js.truthy (MONGO_URI w) = false ->
  connectToDatabase o w = (turnedAway w, inl notSet).
Proof.
  intros Hc Hu. io_unfold. rewrite Hc. cbv beta. rewrite Hu. reflexivity.
Qed.

Lemma app_unset o req w :
  cachedDb w = None -> Js.truthy (MONGO_URI w) = false ->
  app o req w = (turnedAway w, inr (refusal notSet)).
Proof.
  intros Hc Hu. apply app_refused, connect_unset; assumption.
Qed.

Lemma serveAll_unset reqs w :
  cachedDb w = None -> Js.truthy (MONGO_URI w) = false ->
  let (w', rs) := serveAll reqs w in
  MONGO_URI w' = MONGO_URI w /\ cachedDb w' = None /\
  disk w' = disk w /\ collection w' = collection w /\
  idCounter w' = idCounter w /\
  attempts (trace w') = attempts (trace w) /\
  rs = List.map (fun _ => Some (refusal notSet)) reqs.
Proof.
  revert w. induction reqs as [|[o req] reqs IH]; intros w Hc Hu.
  - cbn. auto 10.
  - cbn [serveAll List.map]. rewrite (app_unset o req w Hc Hu).
    specialize (IH (turnedAway w) Hc Hu).
    destruct (serveAll reqs (turnedAway w)) as [w' rs].
    destruct IH as (H1 & H2 & H3 & H4 & H5 & H6 & H7).
    cbn [turnedAway MONGO_URI cachedDb disk collection idCounter trace] in *.
    rewrite attempts_app in H6. cbn in H6. rewrite Nat.add_0_r in H6.
    rewrite H7. auto 10.
Qed.

Lemma startup_env env env' d docs c :
  is_Some (startup env d docs c) -> is_Some (startup env' d docs c).
Proof.
  unfold startup. intros [w H]. repeat case_match; simplify_eq; eauto.
Qed.

End Unconfigured.

(** ** The upload route *)

Section Upload.

Variable o : outcome.
Variable fields : formFields.

(** A 201 means: the middleware let the request pass and the document was
    saved. *)
Lemma upload_created part w w' r :
  app o (PostUpload fields part) w = (w', inr r) ->
  status r = 201 ->
  exists w1 db,
    connectToDatabase o w = (w1, inr db) /\ saveError o = None /\
    r = mkResponse 201 (JsonAnswer (uploaded o fields part (idCounter w))) /\
    disk w' = stored o part (disk w) /\
    collection w' = (collection w ++ [uploaded o fields part (idCounter w)])%list.
Proof.
  intros H Hst.
  destruct (connectToDatabase o w) as [w1 [e|db]] eqn:E.
  - rewrite (app_refused _ _ _ _ _ E) in H.
    injection H as <- <-. discriminate Hst.
  - rewrite (app_connected _ _ _ _ _ E) in H. cbn [route] in H.
    destruct (connect_frame _ _ _ _ E) as (_ & Hd & Hc & Hi).
    destruct (postUpload_cases o fields part w1)
      as [[_ E']|[(_ & Es & E')|(err & _ & _ & E')]];
      rewrite E' in H; injection H as <- <-; try discriminate Hst.
    exists w1, db. proj_simpl. rewrite Hd, Hc, Hi. auto.
Qed.

(** A 201 also means that Multer handed the request on. *)
Lemma upload_created_multer part w w' r :
  app o (PostUpload fields part) w = (w', inr r) ->
  status r = 201 ->
  multerOk o part (disk w) = true.
Proof.
  intros H Hst.
  destruct (connectToDatabase o w) as [w1 [e|db]] eqn:E.
  - rewrite (app_refused _ _ _ _ _ E) in H.
    injection H as <- <-. discriminate Hst.
  - rewrite (app_connected _ _ _ _ _ E) in H. cbn [route] in H.
    destruct (connect_frame _ _ _ _ E) as (_ & Hd & Hc & Hi).
    destruct (postUpload_cases o fields part w1)
      as [[_ E']|[(Hm & Es & E')|(err & _ & _ & E')]];
      rewrite E' in H; injection H as <- <-; try discriminate Hst.
    rewrite <- Hd. exact Hm.
Qed.

Lemma upload_saved part w w1 db :
  connectToDatabase o w = (w1, inr db) ->
  multerOk o part (disk w) = true -> saveError o = None ->
  app o (PostUpload fields part) w
  = (mkWorld (MONGO_URI w) (Some db) (stored o part (disk w))
             (collection w ++ [uploaded o fields part (idCounter w)])
             (N.succ (idCounter w)) (trace w1),
     inr (mkResponse 201 (JsonAnswer (uploaded o fields part (idCounter w))))).
Proof.
  intros E Hm Es. rewrite (app_connected _ _ _ _ _ E). cbn [route].
  destruct (connect_frame _ _ _ _ E) as (Hu & Hd & Hc & Hi).
  rewrite postUpload_eq, Hd, Hm, Es. cbv zeta.
  rewrite (connect_ok_cached _ _ _ _ E), Hu, Hc, Hi. reflexivity.
Qed.


(** Multer has nothing to write for a request without a file part. *)
Lemma multerOk_no_file d : uploadError o = None -> multerOk o None d = true.
Proof. intros H. unfold multerOk. rewrite H. reflexivity. Qed.

End Upload.

(** ** The list route *)

Section Ordering.

Lemma string_leb_trans a b c :
  String.leb a b = true -> String.leb b c = true -> String.leb a c = true.
Proof.
  unfold String.leb. revert b c.
  induction a as [|x a IH]; intros [|y b] [|z c]; cbn [String.compare];
    try congruence.
  unfold Ascii.compare.
  destruct (N.compare_spec (N_of_ascii x) (N_of_ascii y)) as [Exy|Lxy|Gxy];
    try congruence;
    destruct (N.compare_spec (N_of_ascii y) (N_of_ascii z)) as [Eyz|Lyz|Gyz];
    try congruence;
    destruct (N.compare_spec (N_of_ascii x) (N_of_ascii z)) as [Exz|Lxz|Gxz];
    try congruence; try lia.
  apply IH.
Qed.

Lemma keyLeb_trans a b c :
  keyLeb a b = true -> keyLeb b c = true -> keyLeb a c = true.
Proof.
  destruct a, b, c; cbn; try congruence. apply string_leb_trans.
Qed.

Lemma keyLeb_total a b : keyLeb a b = true \/ keyLeb b a = true.
Proof.
  destruct a, b; cbn; auto. apply String.leb_total.
Qed.

#[global] Instance newerFirst_trans : Transitive newerFirst.
Proof. intros a b c Hab Hbc. exact (keyLeb_trans _ _ _ Hbc Hab). Qed.

#[global] Instance newerFirst_total : Total newerFirst.
Proof.
  intros a b.
  destruct (keyLeb_total (uploadDate a) (uploadDate b)); [right|left]; assumption.
Qed.

Lemma StronglySorted_lookup {A} (R : relation A) (l : list A) i j a b :
  StronglySorted R l -> i < j ->
  l !! i = Some a -> l !! j = Some b -> R a b.
Proof.
  intros Hs. revert i j. induction Hs as [|x l Hs IH Hall]; intros i j Hij Hi Hj.
  - discriminate Hi.
  - destruct j as [|j]; [lia|]. cbn in Hj. destruct i as [|i].
    + cbn in Hi. injection Hi as <-.
      rewrite List.Forall_forall in Hall. apply Hall.
      apply list_elem_of_In, list_elem_of_lookup. eauto.
    + cbn in Hi. apply (IH i j); [lia | assumption | assumption].
Qed.

End Ordering.

(** ** The delete route *)

Section Delete.

Lemma unlinked_app t1 t2 : unlinked (t1 ++ t2)%list = (unlinked t1 ++ unlinked t2)%list.
Proof. apply omap_app. Qed.

Lemma connect_unlinked o w w1 r :
  connectToDatabase o w = (w1, r) -> unlinked (trace w1) = unlinked (trace w).
Proof.
  io_unfold. intros H.
  repeat case_match; simplify_eq; proj_simpl;
    rewrite ?unlinked_app; cbn; rewrite ?app_nil_r; reflexivity.
Qed.

Lemma find_none_iff id docs :
  List.find (hasId id) docs = None <-> forall a, In a docs -> _id a <> id.
Proof.
  split.
  - intros H a Ha E. apply (List.find_none _ _ H) in Ha.
    unfold hasId in Ha. apply N.eqb_neq in Ha. contradiction.
  - intros H. induction docs as [|a docs IH]; [reflexivity|]. cbn.
    destruct (hasId id a) eqn:E.
    + apply N.eqb_eq in E. exfalso. apply (H a); [left; reflexivity | exact E].
    + apply IH. intros b Hb. apply H. right. exact Hb.
Qed.

Lemma removeFirst_none id docs :
  List.find (hasId id) docs = None -> removeFirst id docs = docs.
Proof.
  induction docs as [|a docs IH]; [reflexivity|]. cbn.
  destruct (hasId id a); [discriminate|]. intros H. rewrite (IH H). reflexivity.
Qed.

Lemma removeFirst_some id docs a :
  List.find (hasId id) docs = Some a ->
  _id a = id /\ docs ≡ₚ a :: removeFirst id docs.
Proof.
  induction docs as [|b docs IH]; [discriminate|]. cbn.
  destruct (hasId id b) eqn:E.
  - intros [= <-]. split; [apply N.eqb_eq, E | reflexivity].
  - intros H. destruct (IH H) as [Hid Hp]. split; [exact Hid|].
    rewrite Hp at 1. apply Permutation_swap.
Qed.

End Delete.

(** ** The serve-file route *)

Section ServeFile.




End ServeFile.

(** ** The two steps of a call, and calls that overlap *)

Section Phases.

Variable o : outcome.

(** A call that runs undisturbed is its two steps, one right after the
    other. *)
Lemma connect_phases w :
  connectToDatabase o w
  = match connectBegin w with
    | (w1, inl e) => (w1, inl e)
    | (w1, inr (inl db)) => (w1, inr db)
    | (w1, inr (inr uri)) => connectSettle o uri w1
    end.
Proof.
  io_unfold. destruct (cachedDb w); [reflexivity|]. cbv beta.
  destruct (Js.truthy (MONGO_URI w)); [|reflexivity].
  cbn [negb]. cbv beta iota. proj_simpl.
  destruct (connectResult o); reflexivity.
Qed.

Lemma begin_cached w db :
  cachedDb w = Some db -> connectBegin w = (w, inr (inl db)).
Proof. intros H. io_unfold. rewrite H. reflexivity. Qed.

(** The first step of a call that finds the cache empty and the
    connection string set: the call waits for [mongoose.connect]. *)
Lemma begin_waits w :
  cachedDb w = None -> Js.truthy (MONGO_URI w) = true ->
  connectBegin w
  = (mkWorld (MONGO_URI w) (cachedDb w) (disk w) (collection w) (idCounter w)
             (trace w ++ [ConsoleLog "Connecting to MongoDB..."]),
     inr (inr (Js.text (MONGO_URI w)))).
Proof.
  intros Hc Hu. io_unfold. rewrite Hc. cbv beta. rewrite Hu.
  cbn [negb]. cbv beta iota. proj_simpl. rewrite ?Hc. reflexivity.
Qed.

(** The second step: the handle is cached exactly when the driver hands
    one out, whatever is cached by then. *)
Lemma settle_result uri w :
  exists w1,
    connectSettle o uri w = (w1, connectResult o) /\
    cachedDb w1 = match connectResult o with
                  | inr db => Some db
                  | inl _ => cachedDb w
                  end /\
    attempts (trace w1) = S (attempts (trace w)) /\
    established (trace w1)
    = established (trace w) + match connectResult o with
                              | inr _ => 1
                              | inl _ => 0
                              end /\
    In (MongooseConnect uri match connectResult o with
                            | inr _ => true
                            | inl _ => false
                            end) (trace w1).
Proof.
  io_unfold. destruct (connectResult o) as [e|db]; eexists;
    (split; [reflexivity|]); proj_simpl;
    rewrite ?attempts_app, ?established_app; cbn;
    repeat split; try lia; rewrite !in_app_iff; cbn; auto.
Qed.

(** A call that finds the cache empty and the connection string set
    calls [mongoose.connect] on that string, returns what the driver
    answers and caches the handle when there is one. *)
Lemma connect_first w :
  cachedDb w = None -> Js.truthy (MONGO_URI w) = true ->
  exists w1,
    connectToDatabase o w = (w1, connectResult o) /\
    cachedDb w1 = match connectResult o with
                  | inr db => Some db
                  | inl _ => None
                  end /\
    attempts (trace w1) = S (attempts (trace w)) /\
    established (trace w1)
    = established (trace w) + match connectResult o with
                              | inr _ => 1
                              | inl _ => 0
                              end /\
    In (MongooseConnect (Js.text (MONGO_URI w))
          match connectResult o with
          | inr _ => true
          | inl _ => false
          end) (trace w1).
Proof.
  intros Hc Hu. rewrite connect_phases, (begin_waits w Hc Hu).
  destruct (settle_result (Js.text (MONGO_URI w))
              (mkWorld (MONGO_URI w) (cachedDb w) (disk w) (collection w)
                 (idCounter w)
                 (trace w ++ [ConsoleLog "Connecting to MongoDB..."])))
    as (w1 & E & H1 & H2 & H3 & H4).
  exists w1. proj_simpl. rewrite attempts_app, established_app in *.
  cbn in H2, H3. rewrite Hc in H1.
  repeat split; try assumption; lia.
Qed.

End Phases.

(** Once a handle is cached, a call that begins returns at once, and
    the only calls of [mongoose.connect] still to settle are those of
    the calls that were waiting already. *)
Lemma overlap_cached ms : forall w waiting,
  is_Some (cachedDb w) ->
  let '(w', waiting', rs) := overlap ms w waiting in
  is_Some (cachedDb w') /\
  attempts (trace w') + List.length waiting'
  <= attempts (trace w) + List.length waiting /\
  established (trace w') <= established (trace w) + List.length waiting.
Proof.
  induction ms as [|[|i o] ms IH]; intros w waiting Hc.
  - cbn. repeat split; [exact Hc|lia|lia].
  - cbn [overlap]. destruct Hc as [db Hdb].
    rewrite (begin_cached w db Hdb).
    specialize (IH w waiting (ex_intro _ db Hdb)).
    destruct (overlap ms w waiting) as [[w' waiting'] rs]. exact IH.
  - cbn [overlap]. destruct (waiting !! i) as [uri|] eqn:Ei.
    + destruct (settle_result o uri w) as (w1 & E & H1 & H2 & H3 & _).
      rewrite E.
      assert (Hc1 : is_Some (cachedDb w1)).
      { rewrite H1. destruct (connectResult o); [exact Hc|eauto]. }
      specialize (IH w1 (delete i waiting) Hc1).
      destruct (overlap ms w1 (delete i waiting)) as [[w' waiting'] rs].
      destruct IH as (IH1 & IH2 & IH3).
      pose proof (lookup_lt_Some _ _ _ Ei) as Hlt.
      rewrite length_delete in IH2, IH3 by eauto.
      split; [exact IH1|].
      destruct (connectResult o); lia.
    + specialize (IH w waiting Hc).
      destruct (overlap ms w waiting) as [[w' waiting'] rs]. exact IH.
Qed.

(** One call with nothing else going on is the call of
    [connectToDatabase]. *)
Lemma overlap_alone o w :
  overlap [Call; Settle 0 o] w []
  = (fst (connectToDatabase o w), [], [snd (connectToDatabase o w)]).
Proof.
  rewrite connect_phases. cbn [overlap].
  destruct (connectBegin w) as [w1 [e|[db|uri]]]; cbn; try reflexivity.
  destruct (connectSettle o uri w1) as [w2 r]. reflexivity.
Qed.

(** Two calls made before either [mongoose.connect] has settled: both
    call [mongoose.connect], and each returns what its own call of it
    answers. *)
Lemma overlap_twice o1 o2 w :
  cachedDb w = None -> Js.truthy (MONGO_URI w) = true ->
  let '(w', waiting', rs) :=
    overlap [Call; Call; Settle 0 o1; Settle 0 o2] w [] in
  attempts (trace w') = attempts (trace w) + 2 /\
  rs = [connectResult o1; connectResult o2] /\
  waiting' = [].
Proof.
  intros Hc Hu. cbn [overlap]. rewrite (begin_waits w Hc Hu).
  match goal with
  | |- context [connectBegin ?x] => set (w0 := x)
  end.
  rewrite (begin_waits w0 Hc Hu).
  change (MONGO_URI w0) with (MONGO_URI w).
  match goal with
  | |- context [connectSettle o1 _ ?x] => set (w0' := x)
  end.
  assert (Ha0 : attempts (trace w0') = attempts (trace w)).
  { subst w0' w0. proj_simpl. rewrite !attempts_app. cbn. lia. }
  clearbody w0'. clear w0.
  cbn -[connectSettle attempts].
  destruct (settle_result o1 (Js.text (MONGO_URI w)) w0')
    as (w1 & E1 & _ & Ha1 & _).
  rewrite E1.
  destruct (settle_result o2 (Js.text (MONGO_URI w)) w1)
    as (w2 & E2 & _ & Ha2 & _).
  rewrite E2.
  repeat split. lia.
Qed.


(** ** The parameter of the delete route *)

Section Cast.

Variable o : outcome.

Lemma cast_length param id :
  castObjectId o param = Some id ->
  String.length param = 24 \/ String.length param = 12.
Proof.
  unfold castObjectId.
  destruct (Nat.eqb (String.length param) 24) eqn:E24;
    [apply Nat.eqb_eq in E24; auto|].
  destruct (Nat.eqb (String.length param) 12) eqn:E12;
    [apply Nat.eqb_eq in E12; auto|].
  discriminate.
Qed.

Lemma appDelete_uncast_frame param w w' r :
  castObjectId o param = None ->
  appDelete o param w = (w', r) ->
  collection w' = collection w /\ disk w' = disk w /\
  unlinked (trace w') = unlinked (trace w).
Proof.
  intros Hc H. rewrite (appDelete_uncast _ _ _ Hc) in H.
  destruct (connectToDatabase o w) as [w1 r1] eqn:E.
  injection H as <- _. cbn [fst].
  destruct (connect_frame _ _ _ _ E) as (_ & Hd & Hcol & _).
  pose proof (connect_unlinked _ _ _ _ E). auto.
Qed.

End Cast.


(** ** An upload served back *)



(** ** Concrete runs *)

Example startup_fresh_world env : startup env ∅ [] 0 = Some (freshWorld env).
Proof. vm_compute. reflexivity. Qed.

(** Two uploads, then a listing, a download and two deletions. *)
Example session :
  snd (serveAll
         [ (calm 100, PostUpload (sampleFields "2024-01-01") (Some notes));
           (calm 101, PostUpload (sampleFields "2024-02-01") None);
           (calm 102, GetAnswers);
           (calm 103, GetUpload "100-a.txt");
           (calm 104, DeleteAnswer 7);
           (unlinkRefused 105, DeleteAnswer 0);
           (calm 106, GetAnswers) ]
         (freshWorld (Js.Str sampleUri)))
  = [ Some (mkResponse 201 (JsonAnswer docA));
      Some (mkResponse 201 (JsonAnswer docB));
      Some (mkResponse 200 (JsonAnswers [docB; docA]));
      Some (mkResponse 200 (FileStream [x68; x69] "text/plain"));
      Some (mkResponse 404 (SentString "Answer not found"));
      Some (mkResponse 200 (JsonMessage "Answer deleted successfully" None));
      Some (mkResponse 200 (JsonAnswers [docB])) ].
Proof. vm_compute. reflexivity. Qed.

Example busyWorld_reached :
  fst (serveAll
         [ (calm 100, PostUpload (sampleFields "2024-01-01") (Some notes));
           (calm 101, PostUpload (sampleFields "2024-02-01") None) ]
         (freshWorld (Js.Str sampleUri)))
  = mkWorld (Js.Str sampleUri) (Some 1) (disk busyWorld) [docA; docB] 2
            [ConsoleLog "Connecting to MongoDB...";
             MongooseConnect sampleUri true;
             ConsoleLog "Successfully connected to MongoDB Atlas!"].
Proof. vm_compute. reflexivity. Qed.

(** * Main results *)

(** C1.  Whenever an upload request with a file part is answered with
    201, the body is the created record, its [fileName] is the generated
    name [<Date.now()>-<originalname>], its [filePath] is
    [path.join(uploadDir, fileName)] and its [mimeType] is the type of
    the part; none of the three is null or undefined.  The record is in
    the collection and the payload is on disk at [filePath].  For the
    base names the multipart parser delivers, [filePath] is
    [/tmp/uploads/<fileName>], a path below the upload directory. *)
Theorem C1_upload_with_file :
  forall o fields part w w' r,
    app o (PostUpload fields (Some part)) w = (w', inr r) ->
    status r = 201 ->
    exists doc,
      payloadOf r = JsonAnswer doc /\
      fileName doc
      = Js.Str (Js.numberToString (now o) +:+ "-" +:+ originalname part) /\
      filePath doc = Js.Str (Path.join [uploadDir; Js.text (fileName doc)]) /\
      mimeType doc = Js.Str (mimetype part) /\
      (forall v, In v [fileName doc; filePath doc; mimeType doc] ->
                 v <> Js.Null /\ v <> Js.Undefined) /\
      In doc (collection w') /\
      disk w' !! Js.text (filePath doc) = Some (File (payload part)) /\
      (baseName (originalname part) ->
       Js.text (filePath doc) = uploadDir +:+ "/" +:+ Js.text (fileName doc) /\
       Path.isUnder uploadDir (Js.text (filePath doc)) = true).
Proof.
  intros o fields part w w' r H Hst.
  destruct (upload_created _ _ _ _ _ _ H Hst)
    as (w1 & db & _ & _ & -> & Hd & Hc).
  exists (uploaded o fields (Some part) (idCounter w)).
  cbn [payloadOf uploaded fileName filePath mimeType Js.text].
  repeat split.
  - cbn in H0. intros ->. intuition discriminate.
  - cbn in H0. intros ->. intuition discriminate.
  - rewrite Hc. apply in_or_app. right. left. reflexivity.
  - rewrite Hd. cbn [stored]. apply lookup_insert_eq.
  - rewrite (stored_path o part H0). reflexivity.
  - rewrite (stored_path o part H0). apply isUnder_uploadDir.
Qed.

Lemma C1_upload_with_file_witness :
  app (calm 100) (PostUpload (sampleFields "2024-01-01") (Some notes))
      (freshWorld (Js.Str sampleUri))
  = (fst (app (calm 100) (PostUpload (sampleFields "2024-01-01") (Some notes))
              (freshWorld (Js.Str sampleUri))),
     inr (mkResponse 201 (JsonAnswer docA))) /\
  status (mkResponse 201 (JsonAnswer docA)) = 201 /\
  exists doc,
    JsonAnswer docA = JsonAnswer doc /\
    fileName doc = Js.Str "100-a.txt" /\
    filePath doc = Js.Str "/tmp/uploads/100-a.txt" /\
    mimeType doc = Js.Str "application/pdf" /\
    Path.isUnder uploadDir (Js.text (filePath doc)) = true.
Proof.
  assert (H : app (calm 100) (PostUpload (sampleFields "2024-01-01") (Some notes))
                  (freshWorld (Js.Str sampleUri))
              = (fst (app (calm 100)
                          (PostUpload (sampleFields "2024-01-01") (Some notes))
                          (freshWorld (Js.Str sampleUri))),
                 inr (mkResponse 201 (JsonAnswer docA))))
    by (vm_compute; reflexivity).
  split; [exact H|]. split; [reflexivity|].
  destruct (C1_upload_with_file _ _ _ _ _ _ H eq_refl)
    as (doc & Hp & Hf & Hpath & Hm & _ & _ & _ & Hbase).
  exists doc. cbn [payloadOf] in Hp.
  destruct (Hbase eq_refl) as [_ Hunder].
  injection Hp as <-.
  repeat split; reflexivity.
Defined.

(** C2.  An upload request without a file part succeeds like one with a
    file: when the connection is there, Multer reports no error and the
    store accepts the document, the answer is 201 with the created
    record, whose [fileName], [filePath] and [mimeType] are all null;
    the record is appended to the collection and the disk is not
    touched.  The absence of the file causes no failure: whenever a
    request is answered 201 with some file part, it is answered 201
    without it. *)
Theorem C2_upload_without_file :
  (forall o fields w w1 db,
      connectToDatabase o w = (w1, inr db) ->
      uploadError o = None ->
      saveError o = None ->
      exists w' doc,
        app o (PostUpload fields None) w
        = (w', inr (mkResponse 201 (JsonAnswer doc))) /\
        fileName doc = Js.Null /\ filePath doc = Js.Null /\
        mimeType doc = Js.Null /\
        collection w' = (collection w ++ [doc])%list /\
        disk w' = disk w) /\
  (forall o fields part w w' r,
      app o (PostUpload fields (Some part)) w = (w', inr r) ->
      status r = 201 ->
      statusOf (app o (PostUpload fields None) w) = Some 201).
Proof.
  assert (Hmain : forall o fields w w1 db,
             connectToDatabase o w = (w1, inr db) ->
             uploadError o = None ->
             saveError o = None ->
             app o (PostUpload fields None) w
             = (mkWorld (MONGO_URI w) (Some db) (disk w)
                  (collection w ++ [uploaded o fields None (idCounter w)])
                  (N.succ (idCounter w)) (trace w1),
                inr (mkResponse 201
                       (JsonAnswer (uploaded o fields None (idCounter w)))))).
  { intros o fields w w1 db E Eu Es.
    apply (upload_saved o fields None w w1 db E);
      [apply multerOk_no_file|]; assumption. }
  split.
  - intros o fields w w1 db E Eu Es.
    eexists _, (uploaded o fields None (idCounter w)).
    split; [apply (Hmain o fields w w1 db E Eu Es)|].
    cbn. repeat split.
  - intros o fields part w w' r H Hst.
    pose proof (upload_created_multer _ _ _ _ _ _ H Hst) as Hm.
    destruct (upload_created _ _ _ _ _ _ H Hst) as (w1 & db & E & Es & _).
    assert (Eu : uploadError o = None).
    { unfold multerOk in Hm. destruct (uploadError o); [discriminate|reflexivity]. }
    rewrite (Hmain o fields w w1 db E Eu Es). reflexivity.
Qed.

Lemma C2_upload_without_file_witness :
  connectToDatabase (calm 101) busyWorld = (busyWorld, inr 1) /\
  uploadError (calm 101) = None /\
  saveError (calm 101) = None /\
  (exists w' doc,
    app (calm 101) (PostUpload (sampleFields "2024-03-01") None) busyWorld
    = (w', inr (mkResponse 201 (JsonAnswer doc))) /\
    fileName doc = Js.Null /\ filePath doc = Js.Null /\
    mimeType doc = Js.Null /\ disk w' = disk busyWorld) /\
  status (mkResponse 201 (JsonAnswer
            (uploaded (calm 101) (sampleFields "2024-03-01") (Some notes) 2)))
  = 201 /\
  statusOf (app (calm 101) (PostUpload (sampleFields "2024-03-01") None)
                busyWorld) = Some 201.
Proof.
  destruct C2_upload_without_file as [Hnone Hwith].
  split; [reflexivity|]. split; [reflexivity|]. split; [reflexivity|].
  split.
  - destruct (Hnone (calm 101) (sampleFields "2024-03-01")
                busyWorld busyWorld 1 eq_refl eq_refl eq_refl)
      as (w' & doc & H & Hf & Hp & Hm & _ & Hd).
    exists w', doc. auto.
  - split; [reflexivity|].
    assert (E : app (calm 101) (PostUpload (sampleFields "2024-03-01")
                                           (Some notes)) busyWorld
                = (fst (app (calm 101) (PostUpload (sampleFields "2024-03-01")
                                                   (Some notes)) busyWorld),
                   inr (mkResponse 201 (JsonAnswer
                          (uploaded (calm 101) (sampleFields "2024-03-01")
                                    (Some notes) 2)))))
      by (vm_compute; reflexivity).
    exact (Hwith _ _ _ _ _ _ E eq_refl).
Defined.

(** C3.  With the connection there and the query not failing, the list
    route answers 200 with all stored records (a permutation of the
    collection) ordered by [uploadDate] descending: of two records that
    both carry a string, the one with the lexicographically greater (or
    equal) string stands first; records without a date sort after all
    others.  When the collection holds exactly a record dated
    ["2024-01-01"] and one dated ["2024-02-01"], the second is listed
    first. *)
Theorem C3_list_sorted_by_uploadDate_desc :
  forall o w w1 db,
    connectToDatabase o w = (w1, inr db) ->
    findError o = None ->
    exists docs,
      app o GetAnswers w = (w1, inr (mkResponse 200 (JsonAnswers docs))) /\
      docs ≡ₚ collection w /\
      StronglySorted newerFirst docs /\
      (forall i j a b x y,
          i < j -> docs !! i = Some a -> docs !! j = Some b ->
          uploadDate a = Js.Str x -> uploadDate b = Js.Str y ->
          String.leb y x = true) /\
      (forall i j a b x,
          i < j -> docs !! i = Some a -> docs !! j = Some b ->
          uploadDate b = Js.Str x -> exists y, uploadDate a = Js.Str y) /\
      (forall a b,
          uploadDate a = Js.Str "2024-01-01" ->
          uploadDate b = Js.Str "2024-02-01" ->
          collection w ≡ₚ [a; b] -> docs = [b; a]).
Proof.
  intros o w w1 db E Ef.
  destruct (connect_frame _ _ _ _ E) as (_ & _ & Hc & _).
  exists (merge_sort newerFirst (collection w)).
  assert (Hsorted : StronglySorted newerFirst (merge_sort newerFirst (collection w)))
    by apply (StronglySorted_merge_sort newerFirst).
  assert (Hperm : merge_sort newerFirst (collection w) ≡ₚ collection w)
    by apply merge_sort_Permutation.
  split; [|split; [|split; [|split; [|split]]]].
  - rewrite (app_connected _ _ _ _ _ E). cbn [route].
    rewrite getAnswers_eq, Ef, Hc. reflexivity.
  - exact Hperm.
  - exact Hsorted.
  - intros i j a b x y Hij Hi Hj Ha Hb.
    pose proof (StronglySorted_lookup _ _ _ _ _ _ Hsorted Hij Hi Hj) as H.
    unfold newerFirst in H. rewrite Ha, Hb in H. exact H.
  - intros i j a b x Hij Hi Hj Hb.
    pose proof (StronglySorted_lookup _ _ _ _ _ _ Hsorted Hij Hi Hj) as H.
    unfold newerFirst in H. rewrite Hb in H.
    destruct (uploadDate a); cbn in H; try discriminate H. eauto.
  - intros a b Ha Hb Hab.
    assert (Hab' : [a; b] ≡ₚ merge_sort newerFirst (collection w))
      by (etransitivity; [symmetry; exact Hab | symmetry; exact Hperm]).
    apply Permutation_length_2_inv in Hab' as [Hl|Hl]; [|exact Hl].
    exfalso. rewrite Hl in Hsorted.
    apply StronglySorted_inv in Hsorted as [_ Hall].
    apply Forall_inv in Hall. unfold newerFirst in Hall.
    rewrite Ha, Hb in Hall. discriminate Hall.
Qed.

Lemma C3_list_sorted_by_uploadDate_desc_witness :
  connectToDatabase (calm 102) busyWorld = (busyWorld, inr 1) /\
  findError (calm 102) = None /\
  exists docs,
    app (calm 102) GetAnswers busyWorld
    = (busyWorld, inr (mkResponse 200 (JsonAnswers docs))) /\
    docs = [docB; docA].
Proof.
  split; [reflexivity|]. split; [reflexivity|].
  destruct (C3_list_sorted_by_uploadDate_desc (calm 102) busyWorld busyWorld 1
              eq_refl eq_refl)
    as (docs & H & _ & _ & _ & _ & Hscenario).
  exists docs. split; [exact H|].
  apply Hscenario; reflexivity.
Defined.

(** C4, as the code has it.  When the identifier of a delete request is
    well formed and no stored record has it, nothing is deleted and no
    file is touched, whatever the connection and the store do; with the
    connection there and the lookup not failing, the answer is 404 and
    the handler leaves the state exactly as the connection middleware
    left it.  The route takes any text but the empty one for the
    identifier.  A parameter
    the driver casts to an identifier is served as the request for that
    identifier.  For any other parameter (every text that is neither 24
    nor 12 characters long is one) the lookup rejects before the store
    is asked: with the connection there the answer is 500 with the
    message of the delete route, not 404, and again nothing is deleted
    and no file is touched. *)
Theorem C4_delete_missing_record :
  (forall id w,
      (forall a, In a (collection w) -> _id a <> id) ->
      (forall o w' r,
          app o (DeleteAnswer id) w = (w', r) ->
          collection w' = collection w /\ disk w' = disk w /\
          unlinked (trace w') = unlinked (trace w)) /\
      (forall o w1 db,
          connectToDatabase o w = (w1, inr db) ->
          findError o = None ->
          app o (DeleteAnswer id) w
          = (w1, inr (mkResponse 404 (SentString "Answer not found")))))
  /\
  (forall o param id w,
      castObjectId o param = Some id ->
      appDelete o param w = app o (DeleteAnswer id) w)
  /\
  (forall o param w,
      param <> "" ->
      castObjectId o param = None ->
      (forall w' r,
          appDelete o param w = (w', r) ->
          collection w' = collection w /\ disk w' = disk w /\
          unlinked (trace w') = unlinked (trace w)) /\
      (forall w1 db,
          connectToDatabase o w = (w1, inr db) ->
          exists err,
            appDelete o param w
            = (w1, inr (mkResponse 500
                          (JsonMessage "Error deleting answer" (Some err))))))
  /\
  (forall o param,
      String.length param <> 24 -> String.length param <> 12 ->
      castObjectId o param = None).
Proof.
  split; [|split; [|split]].
  - intros id w Hno. apply find_none_iff in Hno.
    split.
    + intros o w' r H.
      destruct (connectToDatabase o w) as [w1 [e|db]] eqn:E;
        destruct (connect_frame _ _ _ _ E) as (_ & Hd & Hc & _);
        pose proof (connect_unlinked _ _ _ _ E) as Hu.
      * rewrite (app_refused _ _ _ _ _ E) in H. injection H as <- <-. auto.
      * rewrite (app_connected _ _ _ _ _ E) in H. cbn [route] in H.
        rewrite deleteAnswer_missing in H by (rewrite Hc; exact Hno).
        injection H as <- <-. auto.
    + intros o w1 db E Ef.
      destruct (connect_frame _ _ _ _ E) as (_ & _ & Hc & _).
      rewrite (app_connected _ _ _ _ _ E). cbn [route].
      rewrite deleteAnswer_missing by (rewrite Hc; exact Hno).
      rewrite Ef. reflexivity.
  - intros o param id w Hc. apply appDelete_cast, Hc.
  - intros o param w _ Hc. split.
    + intros w' r H. apply (appDelete_uncast_frame o param w w' r Hc H).
    + intros w1 db E. exists (castError param).
      rewrite (appDelete_uncast _ _ _ Hc), E. reflexivity.
  - intros o param H24 H12.
    destruct (castObjectId o param) as [id|] eqn:E; [|reflexivity].
    destruct (cast_length _ _ _ E); contradiction.
Qed.

Lemma C4_delete_missing_record_witness :
  (forall a, In a (collection busyWorld) -> _id a <> 7%N) /\
  app (calm 104) (DeleteAnswer 7) busyWorld
  = (busyWorld, inr (mkResponse 404 (SentString "Answer not found"))) /\
  castObjectId (calm 104) zeroId = Some 0%N /\
  appDelete (calm 104) zeroId busyWorld
  = app (calm 104) (DeleteAnswer 0) busyWorld /\
  castObjectId (calm 104) "seven" = None /\
  (exists err,
     appDelete (calm 104) "seven" busyWorld
     = (busyWorld,
        inr (mkResponse 500 (JsonMessage "Error deleting answer" (Some err))))).
Proof.
  assert (Hno : forall a, In a (collection busyWorld) -> _id a <> 7%N).
  { intros a [<-|[<-|[]]]; discriminate. }
  destruct C4_delete_missing_record as (Hid & Hcast & Huncast & Hlen).
  split; [exact Hno|].
  split.
  { destruct (Hid 7%N busyWorld Hno) as [_ Hnf].
    exact (Hnf (calm 104) busyWorld 1 eq_refl eq_refl). }
  split; [reflexivity|].
  split; [exact (Hcast (calm 104) zeroId 0%N busyWorld eq_refl)|].
  assert (Hseven : castObjectId (calm 104) "seven" = None).
  { apply Hlen; cbn; lia. }
  split; [exact Hseven|].
  assert (Hparam : "seven" <> "") by discriminate.
  destruct (Huncast (calm 104) "seven" busyWorld Hparam Hseven) as [_ H500].
  exact (H500 busyWorld 1 eq_refl).
Defined.

(** C4 as stated fails on a parameter that is no identifier: it matches
    no record, under either kind of driver, and the answer is 500. *)
Lemma C4_counterexample :
  castObjectId (calm 104) "seven" = None /\
  castObjectId (legacyDriver 104) "seven" = None /\
  collection busyWorld = [docA; docB] /\
  exists err,
    appDelete (calm 104) "seven" busyWorld
    = (busyWorld,
       inr (mkResponse 500 (JsonMessage "Error deleting answer" (Some err)))) /\
    appDelete (legacyDriver 104) "seven" busyWorld
    = (busyWorld,
       inr (mkResponse 500 (JsonMessage "Error deleting answer" (Some err)))) /\
    status (mkResponse 500 (JsonMessage "Error deleting answer" (Some err)))
    <> 404.
Proof.
  split; [reflexivity|]. split; [reflexivity|]. split; [reflexivity|].
  exists (castError "seven").
  split; [vm_compute; reflexivity|]. split; [vm_compute; reflexivity|].
  discriminate.
Qed.

(** C5.  When a stored record has the identifier of a delete request,
    the connection is there and the store carries out the lookup and the
    deletion, the record is removed and the answer is 200 with the
    success message, for every state of the disk and every outcome of
    [fs.unlink].  If the record has no [filePath], or nothing exists at
    it, [fs.unlink] is not called and the disk stays as it is.  If
    something exists there and [fs.unlink] reports an error, the error
    is written to the console, the disk stays as it is and the answer is
    the same.  If the file is there and [fs.unlink] works, the file is
    gone afterwards. *)
Theorem C5_delete_existing_record :
  forall o id w w1 db a,
    connectToDatabase o w = (w1, inr db) ->
    findError o = None ->
    deleteError o = None ->
    List.find (hasId id) (collection w) = Some a ->
    exists w',
      app o (DeleteAnswer id) w
      = (w', inr (mkResponse 200
                    (JsonMessage "Answer deleted successfully" None))) /\
      collection w' = removeFirst id (collection w) /\
      collection w ≡ₚ a :: collection w' /\
      (Js.truthy (filePath a) = false \/
       disk w !! Js.text (filePath a) = None ->
       disk w' = disk w /\ trace w' = trace w1) /\
      (forall err,
          Js.truthy (filePath a) = true ->
          is_Some (disk w !! Js.text (filePath a)) ->
          unlinkError o = Some err ->
          disk w' = disk w /\
          trace w'
          = (trace w1 ++ [FsUnlink (Js.text (filePath a));
                          ConsoleError "Error deleting temp file:" err])%list) /\
      (forall content,
          Js.truthy (filePath a) = true ->
          disk w !! Js.text (filePath a) = Some (File content) ->
          unlinkError o = None ->
          disk w' = delete (Js.text (filePath a)) (disk w) /\
          trace w' = (trace w1 ++ [FsUnlink (Js.text (filePath a))])%list).
Proof.
  intros o id w w1 db a E Ef Ed Hfind.
  destruct (connect_frame _ _ _ _ E) as (_ & Hd & Hc & _).
  destruct (removeFirst_some _ _ _ Hfind) as [_ Hperm].
  rewrite (app_connected _ _ _ _ _ E). cbn [route].
  io_unfold. rewrite Ef. cbv beta. rewrite Hc, Hfind. cbv beta iota.
  destruct (Js.truthy (filePath a)) eqn:Et; cbv beta iota;
    [rewrite Hd; destruct (disk w !! Js.text (filePath a)) as [n|] eqn:El;
     cbv beta iota;
     [destruct (unlinkError o) as [err|] eqn:Eu; cbv beta iota; proj_simpl;
      [|rewrite Hd, El; destruct n; cbv beta iota]|]|];
    rewrite Ed; cbv beta iota; proj_simpl; rewrite ?Hc;
    (eexists; split; [reflexivity|]); proj_simpl;
    (split; [reflexivity|]); (split; [exact Hperm|]);
    rewrite <- ?app_assoc; cbn [app];
    repeat split; intros; simplify_eq; try (destruct_or?; simplify_eq);
    try match goal with H : is_Some None |- _ => destruct H; discriminate end;
    auto.
Qed.

Lemma C5_delete_existing_record_witness :
  connectToDatabase (unlinkRefused 105) busyWorld = (busyWorld, inr 1) /\
  findError (unlinkRefused 105) = None /\
  deleteError (unlinkRefused 105) = None /\
  List.find (hasId 0) (collection busyWorld) = Some docA /\
  exists w',
    app (unlinkRefused 105) (DeleteAnswer 0) busyWorld
    = (w', inr (mkResponse 200
                  (JsonMessage "Answer deleted successfully" None))) /\
    collection w' = [docB] /\
    disk w' = disk busyWorld /\
    trace w' = [FsUnlink "/tmp/uploads/100-a.txt";
                ConsoleError "Error deleting temp file:" "EPERM"].
Proof.
  split; [reflexivity|]. split; [reflexivity|].
  split; [reflexivity|]. split; [reflexivity|].
  destruct (C5_delete_existing_record (unlinkRefused 105) 0 busyWorld busyWorld
              1 docA eq_refl eq_refl eq_refl eq_refl)
    as (w' & H & Hc & _ & _ & Hfail & _).
  exists w'. split; [exact H|]. split; [exact Hc|].
  apply (Hfail "EPERM"); [reflexivity | | reflexivity].
  exists (File [x68; x69]). vm_compute. reflexivity.
Defined.

(** C6, as the code has it.  A call of [connectToDatabase] that finds
    nothing cached and the connection string set calls
    [mongoose.connect], returns what the driver answers and caches the
    handle on success only.  For calls made one after the other this
    memoizes: once a call has succeeded, every later call returns the
    same handle and changes nothing (so it connects to nothing); a call
    that fails leaves [cachedDb] empty, and the next call does what it
    would have done had the failed one never happened.  Over any
    sequence of requests served one after the other by a process since
    its start, at most one connection is established.  The cache is
    filled only after the [await] of line 51, though.  A call is two
    steps with the [await] in between, and a call that begins after a
    handle was cached returns it at once; but calls that begin while
    nothing is cached all wait for a [mongoose.connect] of their own,
    so with calls that overlap the connections are bounded by the calls
    that were waiting, not by one. *)
Theorem C6_memoize_on_success_only :
  (forall o w,
      cachedDb w = None -> Js.truthy (MONGO_URI w) = true ->
      exists w1,
        connectToDatabase o w = (w1, connectResult o) /\
        cachedDb w1 = match connectResult o with
                      | inr db => Some db
                      | inl _ => None
                      end /\
        attempts (trace w1) = S (attempts (trace w)) /\
        established (trace w1)
        = established (trace w) + match connectResult o with
                                  | inr _ => 1
                                  | inl _ => 0
                                  end /\
        In (MongooseConnect (Js.text (MONGO_URI w))
              match connectResult o with
              | inr _ => true
              | inl _ => false
              end) (trace w1))
  /\
  (forall o w w1 db,
      connectToDatabase o w = (w1, inr db) ->
      forall os, connectAll os w1 = (w1, List.map (fun _ => inr db) os))
  /\
  (forall o w w1 e,
      connectToDatabase o w = (w1, inl e) ->
      cachedDb w1 = None /\
      forall o',
        snd (connectToDatabase o' w1) = snd (connectToDatabase o' w) /\
        (Js.truthy (MONGO_URI w1) = true ->
         snd (connectToDatabase o' w1) = connectResult o' /\
         attempts (trace (fst (connectToDatabase o' w1)))
         = S (attempts (trace w1))))
  /\
  (forall env d docs c w0 reqs,
      startup env d docs c = Some w0 ->
      established (trace (fst (serveAll reqs w0))) <= 1)
  /\
  (forall o w,
      connectToDatabase o w
      = match connectBegin w with
        | (w1, inl e) => (w1, inl e)
        | (w1, inr (inl db)) => (w1, inr db)
        | (w1, inr (inr uri)) => connectSettle o uri w1
        end)
  /\
  (forall o w,
      overlap [Call; Settle 0 o] w []
      = (fst (connectToDatabase o w), [], [snd (connectToDatabase o w)]))
  /\
  (forall ms w waiting,
      is_Some (cachedDb w) ->
      let '(w', waiting', rs) := overlap ms w waiting in
      is_Some (cachedDb w') /\
      attempts (trace w') + List.length waiting'
      <= attempts (trace w) + List.length waiting /\
      established (trace w') <= established (trace w) + List.length waiting)
  /\
  (forall o1 o2 w,
      cachedDb w = None -> Js.truthy (MONGO_URI w) = true ->
      let '(w', waiting', rs) :=
        overlap [Call; Call; Settle 0 o1; Settle 0 o2] w [] in
      attempts (trace w') = attempts (trace w) + 2 /\
      rs = [connectResult o1; connectResult o2] /\
      waiting' = []).
Proof.
  split; [|split; [|split; [|split; [|split; [|split; [|split]]]]]].
  - intros o w Hc Hu.
    destruct (connect_first o w Hc Hu) as (w1 & E & H1 & H2 & H3 & H4).
    exists w1. auto 10.
  - intros o w w1 db H os.
    apply connectAll_cached. eapply connect_ok_cached, H.
  - intros o w w1 e H.
    destruct (connect_fail_uncached _ _ _ _ H) as [Hw Hw1].
    split; [exact Hw1|]. intros o'.
    destruct (connect_frame _ _ _ _ H) as (Hu & _).
    split.
    + apply connect_result_ext; congruence.
    + intros Huri.
      destruct (connect_first o' w1 Hw1 Huri) as (w2 & E & _ & H2 & _).
      rewrite E. split; [reflexivity|exact H2].
  - intros env d docs c w0 reqs H.
    apply connInv_bound, serveAll_connInv.
    apply startup_fresh in H as (_ & Hc & _ & _ & Ht).
    unfold connInv. rewrite Hc, Ht. reflexivity.
  - intros o w. apply connect_phases.
  - intros o w. apply overlap_alone.
  - intros ms w waiting. apply overlap_cached.
  - intros o1 o2 w Hc Hu. apply overlap_twice; assumption.
Qed.

Lemma C6_memoize_on_success_only_witness :
  (* the first call connects and caches what the driver hands out *)
  (exists w1,
     connectToDatabase (calmWith 1 7) (freshWorld (Js.Str sampleUri))
     = (w1, inr 7) /\
     cachedDb w1 = Some 7 /\ attempts (trace w1) = 1 /\
     In (MongooseConnect sampleUri true) (trace w1)) /\
  (* a success, then a call while the store is down and one while the
     driver would hand out another handle *)
  connectAll [storeDown 2; calmWith 3 9]
    (fst (connectToDatabase (calmWith 1 7) (freshWorld (Js.Str sampleUri))))
  = (fst (connectToDatabase (calmWith 1 7) (freshWorld (Js.Str sampleUri))),
     [inr 7; inr 7]) /\
  (* a failure, then a retry *)
  snd (connectToDatabase (calmWith 2 9)
         (fst (connectToDatabase (storeDown 1) (freshWorld (Js.Str sampleUri)))))
  = inr 9 /\
  (* three requests, one connection *)
  established (trace (fst (serveAll
      [(storeDown 1, GetAnswers); (calm 2, GetAnswers); (calm 3, GetAnswers)]
      (freshWorld (Js.Str sampleUri))))) <= 1 /\
  (* a call that begins after the success returns at once *)
  (let '(w', waiting', rs) :=
     overlap [Call; Settle 0 (calmWith 4 9)] busyWorld [sampleUri] in
   is_Some (cachedDb w') /\
   attempts (trace w') + List.length waiting' <= 1 /\
   established (trace w') <= 1).
Proof.
  destruct C6_memoize_on_success_only
    as (Hfirst & Hok & Hfail & Honce & _ & _ & Hoverlap & _).
  split; [|split; [|split; [|split]]].
  - destruct (Hfirst (calmWith 1 7) (freshWorld (Js.Str sampleUri))
                eq_refl eq_refl) as (w1 & E & Hc & Ha & _ & Hin).
    exists w1. auto.
  - refine (Hok (calmWith 1 7) (freshWorld (Js.Str sampleUri)) _ 7 _
                [storeDown 2; calmWith 3 9]).
    vm_compute. reflexivity.
  - destruct (Hfail (storeDown 1) (freshWorld (Js.Str sampleUri))
                (fst (connectToDatabase (storeDown 1)
                        (freshWorld (Js.Str sampleUri))))
                "ECONNREFUSED") as [_ Hretry].
    + vm_compute. reflexivity.
    + destruct (Hretry (calmWith 2 9)) as [_ Hcalls].
      destruct Hcalls as [Hres _]; [reflexivity | exact Hres].
  - apply (Honce (Js.Str sampleUri) ∅ [] 0%N).
    apply startup_fresh_world.
  - apply (Hoverlap [Call; Settle 0 (calmWith 4 9)] busyWorld [sampleUri]).
    exists 1. reflexivity.
Defined.

(** C6 as stated fails for calls that overlap: two calls made before
    either [mongoose.connect] has settled both connect, each returns the
    handle of its own connection, and the second overwrites the cache. *)
Lemma C6_counterexample :
  startup (Js.Str sampleUri) ∅ [] 0 = Some (freshWorld (Js.Str sampleUri)) /\
  (let '(w', waiting', rs) :=
     overlap [Call; Call; Settle 0 (calmWith 1 7); Settle 0 (calmWith 2 9)]
             (freshWorld (Js.Str sampleUri)) [] in
   established (trace w') = 2 /\ attempts (trace w') = 2 /\
   rs = [inr 7; inr 9] /\ cachedDb w' = Some 9 /\ waiting' = []).
Proof. split; [apply startup_fresh_world|]. vm_compute. auto 10. Qed.

(** C7.  When the connection string is absent from the environment
    (undefined, or empty), loading the module is not affected: start-up
    succeeds exactly when it would with any other value, logs nothing and
    caches nothing.  The first request (and every later one) makes
    [connectToDatabase] throw the configuration error, and the middleware
    answers it with status 500 and a JSON body carrying that message;
    [mongoose.connect] is never called and no route handler runs: disk,
    collection and identifier counter stay as they were at start-up. *)
Theorem C7_missing_connection_string :
  forall env d docs c w0,
    Js.truthy env = false ->
    startup env d docs c = Some w0 ->
    (forall env', is_Some (startup env' d docs c)) /\
    trace w0 = [] /\ cachedDb w0 = None /\
    (forall o req,
        connectToDatabase o w0
        = (turnedAway w0, inl "MONGO_URI environment variable is not set.") /\
        app o req w0
        = (turnedAway w0,
           inr (mkResponse 500
                  (JsonMessage "Database connection failed"
                     (Some "MONGO_URI environment variable is not set."))))) /\
    (forall reqs,
        let (w', rs) := serveAll reqs w0 in
        rs = List.map (fun _ => Some (refusal notSet)) reqs /\
        disk w' = disk w0 /\ collection w' = docs /\ idCounter w' = c /\
        cachedDb w' = None /\ attempts (trace w') = 0).
Proof.
  intros env d docs c w0 Henv Hstart.
  destruct (startup_fresh _ _ _ _ _ Hstart) as (Hu & Hc & Hd & Hi & Ht).
  assert (Hunset : Js.truthy (MONGO_URI w0) = false) by (rewrite Hu; exact Henv).
  split; [|split; [|split; [|split]]].
  - intros env'. apply (startup_env env). rewrite Hstart. eauto.
  - exact Ht.
  - exact Hc.
  - intros o req. split.
    + apply connect_unset; assumption.
    + apply app_unset; assumption.
  - intros reqs. pose proof (serveAll_unset reqs w0 Hc Hunset) as H.
    destruct (serveAll reqs w0) as [w' rs].
    destruct H as (_ & H2 & H3 & H4 & H5 & H6 & H7).
    rewrite Ht in H6. cbn in H6.
    repeat split; congruence.
Qed.

Lemma C7_missing_connection_string_witness :
  Js.truthy Js.Undefined = false /\
  startup Js.Undefined ∅ [] 0 = Some (freshWorld Js.Undefined) /\
  app (calm 1) (PostUpload (sampleFields "2024-01-01") (Some notes))
      (freshWorld Js.Undefined)
  = (turnedAway (freshWorld Js.Undefined),
     inr (mkResponse 500
            (JsonMessage "Database connection failed"
               (Some "MONGO_URI environment variable is not set.")))).
Proof.
  split; [reflexivity|]. split; [apply startup_fresh_world|].
  destruct (C7_missing_connection_string Js.Undefined ∅ [] 0
              (freshWorld Js.Undefined) eq_refl
              (startup_fresh_world Js.Undefined))
    as (_ & _ & _ & Hfirst & _).
  destruct (Hfirst (calm 1)
              (PostUpload (sampleFields "2024-01-01") (Some notes)))
    as [_ H].
  exact H.
Defined.







(** C10.  The serve-file route does not confine the path to the upload
    directory.  For the file name [../../etc/passwd] (what the route
    parameter [..%2F..%2Fetc%2Fpasswd] decodes to), [path.join] yields
    [/etc/passwd], which is not below the upload directory, and when a
    file exists there its bytes are served with status 200 instead of a
    404. *)
Theorem C10_serve_file_escapes_upload_dir :
  forall o w w1 db content,
    connectToDatabase o w = (w1, inr db) ->
    disk w !! "/etc/passwd" = Some (File content) ->
    Path.join [uploadDir; "../../etc/passwd"] = "/etc/passwd" /\
    Path.isUnder uploadDir "/etc/passwd" = false /\
    app o (GetUpload "../../etc/passwd") w
    = (w1, inr (mkResponse 200
                  (FileStream content (Mime.lookup "/etc/passwd")))).
Proof.
  intros o w w1 db content E Hfile.
  destruct (connect_frame _ _ _ _ E) as (_ & Hd & _ & _).
  split; [reflexivity|]. split; [reflexivity|].
  rewrite (app_connected _ _ _ _ _ E). cbn [route].
  unfold getUpload, bind. cbv zeta. unfold existsSync, bind, gets, ret.
  change (Path.join [uploadDir; "../../etc/passwd"]) with "/etc/passwd".
  rewrite Hd, Hfile.
  unfold sendFile.
  change (hasNul "/etc/passwd") with false.
  change (hasUpSegment "/etc/passwd") with false.
  change (ignoredDotFile "/etc/passwd") with false.
  cbv iota. unfold bind, gets, ret. rewrite Hd, Hfile. reflexivity.
Qed.

Lemma C10_serve_file_escapes_upload_dir_witness :
  connectToDatabase (calm 1) hostWorld = (hostWorld, inr 1) /\
  disk hostWorld !! "/etc/passwd" = Some (File [x72; x6f; x6f; x74]) /\
  Path.isUnder uploadDir (Path.join [uploadDir; "../../etc/passwd"]) = false /\
  app (calm 1) (GetUpload "../../etc/passwd") hostWorld
  = (hostWorld,
     inr (mkResponse 200
            (FileStream [x72; x6f; x6f; x74] (Mime.lookup "/etc/passwd")))).
Proof.
  assert (Hfile : disk hostWorld !! "/etc/passwd"
                  = Some (File [x72; x6f; x6f; x74]))
    by (vm_compute; reflexivity).
  split; [reflexivity|]. split; [exact Hfile|].
  destruct (C10_serve_file_escapes_upload_dir (calm 1) hostWorld hostWorld 1
              [x72; x6f; x6f; x74] eq_refl Hfile)
    as (Hjoin & Hunder & H).
  split; [rewrite Hjoin; exact Hunder | exact H].
Defined.

(** * Further properties *)

(** ** The delete route, state included *)

Section DeleteState.

Variable o : outcome.

Lemma cleanUp_returns a w : snd (cleanUp o a w) = inr tt.
Proof.
  unfold cleanUp. io_unfold.
  destruct (Js.truthy (filePath a)); [|reflexivity].
  destruct (disk w !! Js.text (filePath a)) as [n|] eqn:El; [|reflexivity].
  cbv beta iota. destruct (unlinkError o); [reflexivity|].
  cbv beta iota. proj_simpl. rewrite El. destruct n; reflexivity.
Qed.

(** The clean-up touches the disk and the trace only. *)
Lemma cleanUp_frame a w :
  MONGO_URI (fst (cleanUp o a w)) = MONGO_URI w /\
  cachedDb (fst (cleanUp o a w)) = cachedDb w /\
  collection (fst (cleanUp o a w)) = collection w /\
  idCounter (fst (cleanUp o a w)) = idCounter w.
Proof.
  unfold cleanUp. io_unfold.
  destruct (Js.truthy (filePath a)); [|auto].
  destruct (disk w !! Js.text (filePath a)) as [n|] eqn:El; [|auto].
  cbv beta iota. destruct (unlinkError o); [auto|].
  cbv beta iota. proj_simpl. rewrite El. destruct n; auto.
Qed.

(** What the clean-up does to the disk: it removes the file of the
    record when that is a file and [fs.unlink] works, and nothing
    otherwise. *)
Lemma cleanUp_disk a w :
  disk (fst (cleanUp o a w)) =
  if Js.truthy (filePath a) then
    match disk w !! Js.text (filePath a), unlinkError o with
    | Some (File _), None => delete (Js.text (filePath a)) (disk w)
    | _, _ => disk w
    end
  else disk w.
Proof.
  unfold cleanUp. io_unfold.
  destruct (Js.truthy (filePath a)); [|reflexivity].
  destruct (disk w !! Js.text (filePath a)) as [n|] eqn:El; [|reflexivity].
  cbv beta iota. destruct (unlinkError o); [destruct n; reflexivity|].
  cbv beta iota. proj_simpl. rewrite El. destruct n; reflexivity.
Qed.

Lemma cleanUp_counts a w :
  established (trace (fst (cleanUp o a w))) = established (trace w) /\
  attempts (trace (fst (cleanUp o a w))) = attempts (trace w).
Proof.
  unfold cleanUp. io_unfold.
  destruct (Js.truthy (filePath a)); [|auto].
  destruct (disk w !! Js.text (filePath a)) as [n|] eqn:El; [|auto].
  cbv beta iota. destruct (unlinkError o);
    [|cbv beta iota; proj_simpl; rewrite El; destruct n];
    proj_simpl; rewrite ?established_app, ?attempts_app; cbn; auto with lia.
Qed.

(** The delete route when the lookup finds the record. *)
Lemma deleteAnswer_found id a w :
  findError o = None ->
  List.find (hasId id) (collection w) = Some a ->
  deleteAnswer o id w =
  let w1 := fst (cleanUp o a w) in
  match deleteError o with
  | None =>
      (mkWorld (MONGO_URI w1) (cachedDb w1) (disk w1)
               (removeFirst id (collection w)) (idCounter w1) (trace w1),
       inr (mkResponse 200 (JsonMessage "Answer deleted successfully" None)))
  | Some err =>
      (w1, inr (mkResponse 500 (JsonMessage "Error deleting answer" (Some err))))
  end.
Proof.
  intros Ef Hfind.
  pose proof (cleanUp_returns a w) as Hret.
  pose proof (cleanUp_frame a w) as (_ & _ & Hc & _).
  unfold deleteAnswer, tryCatch, bind at 1, findById. rewrite Ef.
  unfold bind at 1, gets at 1, ret at 1. rewrite Hfind.
  change (present <- (if Js.truthy (filePath a)
                      then existsSync (Js.text (filePath a))
                      else ret false) ;;
          if present then fsUnlink o (Js.text (filePath a)) else ret tt)
    with (cleanUp o a).
  unfold bind at 1.
  destruct (cleanUp o a w) as [w1 [e|[]]] eqn:E; cbn [snd fst] in *;
    [discriminate Hret|].
  unfold bind at 1, findByIdAndDelete.
  destruct (deleteError o); [reflexivity|].
  unfold bind, gets, setCollection, modify, ret. cbn [fst snd].
  rewrite Hc. reflexivity.
Qed.

End DeleteState.

(** ** What a request can do to the state *)

Section Effects.

Variable o : outcome.

(** The state after the middleware and a route handler. *)
Lemma app_route req w :
  exists w1, sameStore w w1 /\
    unlinked (trace w1) = unlinked (trace w) /\
    (app o req w = route o req w1 \/
     exists e, app o req w = (w1, inr (refusal e)) /\
               (e = notSet \/ connectResult o = inl e)).
Proof.
  destruct (connectToDatabase o w) as [w1 [e|db]] eqn:E; exists w1;
    (split; [exact (connect_frame _ _ _ _ E)|]);
    (split; [exact (connect_unlinked _ _ _ _ E)|]).
  - right. exists e. split; [apply app_refused, E|].
    revert E. io_unfold.
    destruct (cachedDb w); [discriminate|]. cbv beta.
    destruct (Js.truthy (MONGO_URI w)); cbn [negb]; cbv beta iota.
    + destruct (connectResult o); cbv beta iota; proj_simpl; intros [= _ <-]; auto.
    + intros [= _ <-]. auto.
  - left. apply (app_connected _ _ _ _ _ E).
Qed.

(** The collection changes by an appended upload or a removed record,
    and not otherwise. *)
Lemma app_collection req w w' r :
  app o req w = (w', r) ->
  collection w' = collection w \/
  (exists fields part,
      req = PostUpload fields part /\ saveError o = None /\
      r = inr (mkResponse 201
                 (JsonAnswer (uploaded o fields part (idCounter w)))) /\
      collection w'
      = (collection w ++ [uploaded o fields part (idCounter w)])%list /\
      idCounter w' = N.succ (idCounter w)) \/
  (exists id,
      req = DeleteAnswer id /\
      r = inr (mkResponse 200
                 (JsonMessage "Answer deleted successfully" None)) /\
      collection w' = removeFirst id (collection w)).
Proof.
  intros H.
  destruct (app_route req w) as (w1 & (_ & _ & Hc & Hi) & _ & [E|(e & E & _)]);
    rewrite E in H; [|injection H as <- <-; auto].
  destruct req as [|fields part|id|fileName]; cbn [route] in H.
  - rewrite getAnswers_eq in H. destruct (findError o); injection H as <- <-; auto.
  - destruct (postUpload_cases o fields part w1)
      as [[_ E']|[(_ & Es & E')|(err & _ & Es & E')]];
      rewrite E' in H; injection H as <- <-; proj_simpl; auto.
    right. left. exists fields, part. rewrite Hc, Hi. auto 10.
  - destruct (findError o) as [err|] eqn:Ef.
    + destruct (List.find (hasId id) (collection w1)) eqn:Hf.
      * destruct (deleteAnswer_response o id w1) as [w2 H2].
        rewrite Ef in H2.
        assert (collection w2 = collection w1).
        { revert H2. io_unfold. rewrite Ef. intros [= <-]. reflexivity. }
        rewrite H2 in H. injection H as <- <-. left. congruence.
      * rewrite deleteAnswer_missing in H by exact Hf.
        injection H as <- <-. auto.
    + destruct (List.find (hasId id) (collection w1)) as [a|] eqn:Hf.
      * rewrite (deleteAnswer_found o id a w1 Ef Hf) in H. cbv zeta in H.
        pose proof (cleanUp_frame o a w1) as (_ & _ & Hc' & _).
        destruct (deleteError o); injection H as <- <-; proj_simpl.
        -- left. congruence.
        -- right. right. exists id. rewrite Hc. auto.
      * rewrite deleteAnswer_missing in H by exact Hf.
        injection H as <- <-. auto.
  - destruct (getUpload_responds fileName w1) as [resp E']. rewrite E' in H.
    injection H as <- <-. auto.
Qed.

(** The disk changes by a stored upload or a removed file of a deleted
    record, and not otherwise. *)
Lemma app_disk req w w' r :
  app o req w = (w', r) ->
  disk w' = disk w \/
  (exists fields part,
      req = PostUpload fields (Some part) /\
      disk w' = stored o (Some part) (disk w)) \/
  (exists id a content,
      req = DeleteAnswer id /\
      List.find (hasId id) (collection w) = Some a /\
      Js.truthy (filePath a) = true /\
      disk w !! Js.text (filePath a) = Some (File content) /\
      disk w' = delete (Js.text (filePath a)) (disk w)).
Proof.
  intros H.
  destruct (app_route req w) as (w1 & (_ & Hd & Hc & _) & _ & [E|(e & E & _)]);
    rewrite E in H; [|injection H as <- <-; auto].
  destruct req as [|fields part|id|fileName]; cbn [route] in H.
  - rewrite getAnswers_eq in H. destruct (findError o); injection H as <- <-; auto.
  - destruct (postUpload_cases o fields part w1)
      as [[_ E']|[(_ & Es & E')|(err & _ & Es & E')]];
      rewrite E' in H; injection H as <- <-; proj_simpl; auto;
      destruct part as [part|]; cbn [stored];
      auto; right; left; exists fields, part; rewrite Hd; auto.
  - destruct (findError o) as [err|] eqn:Ef.
    + destruct (deleteAnswer_response o id w1) as [w2 H2].
      assert (disk w2 = disk w1).
      { revert H2. io_unfold. rewrite Ef. intros [= <-]. reflexivity. }
      rewrite H2 in H. injection H as <- _. left. congruence.
    + destruct (List.find (hasId id) (collection w1)) as [a|] eqn:Hf.
      * rewrite (deleteAnswer_found o id a w1 Ef Hf) in H. cbv zeta in H.
        pose proof (cleanUp_disk o a w1) as Hcd.
        assert (Hw' : disk w' = disk (fst (cleanUp o a w1)))
          by (destruct (deleteError o); injection H as <- _; reflexivity).
        rewrite Hw', Hcd. clear H Hw' Hcd.
        destruct (Js.truthy (filePath a)) eqn:Et; [|auto].
        rewrite Hd.
        destruct (disk w !! Js.text (filePath a)) as [[|content]|] eqn:El; auto.
        destruct (unlinkError o); auto.
        right. right. exists id, a, content. rewrite <- Hc. auto.
      * rewrite deleteAnswer_missing in H by exact Hf.
        injection H as <- _. auto.
  - destruct (getUpload_responds fileName w1) as [resp E']. rewrite E' in H.
    injection H as <- _. auto.
Qed.

Lemma app_idCounter req w w' r :
  app o req w = (w', r) ->
  idCounter w' = idCounter w \/
  (exists fields part, req = PostUpload fields part /\
                       idCounter w' = N.succ (idCounter w)).
Proof.
  intros H.
  destruct (app_route req w) as (w1 & (_ & _ & _ & Hi) & _ & [E|(e & E & _)]);
    rewrite E in H; [|injection H as <- <-; auto].
  destruct req as [|fields part|id|fileName]; cbn [route] in H.
  - rewrite getAnswers_eq in H. destruct (findError o); injection H as <- <-; auto.
  - destruct (postUpload_cases o fields part w1)
      as [[_ E']|[(_ & Es & E')|(err & _ & Es & E')]];
      rewrite E' in H; injection H as <- <-; proj_simpl; auto;
      right; exists fields, part; rewrite Hi; auto.
  - destruct (findError o) as [err|] eqn:Ef.
    + destruct (deleteAnswer_response o id w1) as [w2 H2].
      assert (idCounter w2 = idCounter w1).
      { revert H2. io_unfold. rewrite Ef. intros [= <-]. reflexivity. }
      rewrite H2 in H. injection H as <- _. left. congruence.
    + destruct (List.find (hasId id) (collection w1)) as [a|] eqn:Hf.
      * rewrite (deleteAnswer_found o id a w1 Ef Hf) in H. cbv zeta in H.
        pose proof (cleanUp_frame o a w1) as (_ & _ & _ & Hi').
        destruct (deleteError o); injection H as <- _; proj_simpl;
          left; congruence.
      * rewrite deleteAnswer_missing in H by exact Hf.
        injection H as <- _. auto.
  - destruct (getUpload_responds fileName w1) as [resp E']. rewrite E' in H.
    injection H as <- _. auto.
Qed.

End Effects.

(** ** Start-up *)

Lemma uploadDir_parents :
  pathsDownTo "" (List.filter (fun s => negb (String.eqb s ""))
                              (Path.split uploadDir))
  = ["/tmp"; "/tmp/uploads"].
Proof. reflexivity. Qed.

(** X1.  Loading the module leaves the upload directory in place: after
    a start-up that succeeds something exists at [/tmp/uploads], every
    entry the disk had is still there, and starting again on the
    resulting disk changes nothing.  Start-up fails in one case only:
    the upload directory is missing and a file sits at [/tmp]. *)
Theorem X1_startup_upload_dir :
  forall env d docs c,
    (forall w,
        startup env d docs c = Some w ->
        is_Some (disk w !! uploadDir) /\
        (forall p n, d !! p = Some n -> disk w !! p = Some n) /\
        startup env (disk w) docs c = Some w) /\
    (startup env d docs c = None <->
     d !! uploadDir = None /\ exists content, d !! "/tmp" = Some (File content)).
Proof.
  intros env d docs c. unfold startup, mkdirSyncRecursive.
  rewrite uploadDir_parents, uploadDir_eq. cbn [mkdirs].
  destruct (d !! "/tmp/uploads") as [n|] eqn:Eu.
  - split.
    + intros w [= <-]. proj_simpl. rewrite Eu. eauto.
    + split; [discriminate | intros [H _]; discriminate H].
  - destruct (d !! "/tmp") as [[|content]|] eqn:Et.
    + split.
      * intros w [= <-]. proj_simpl. rewrite lookup_insert_eq.
        split; [eauto|]. split; [|reflexivity].
        intros p n Hp. rewrite lookup_insert_ne; [exact Hp | congruence].
      * split; [discriminate | intros (_ & content & H); discriminate H].
    + split; [intros w H; discriminate H|].
      split; [eauto | reflexivity].
    + rewrite lookup_insert_ne by discriminate. rewrite Eu. split.
      * intros w [= <-]. proj_simpl. rewrite lookup_insert_eq.
        split; [eauto|]. split; [|reflexivity].
        intros p n Hp.
        rewrite !lookup_insert_ne; [exact Hp | congruence | congruence].
      * split; [discriminate | intros (_ & content & H); discriminate H].
Qed.

Lemma X1_startup_upload_dir_witness :
  startup Js.Undefined ∅ [] 0 = Some (freshWorld Js.Undefined) /\
  disk (freshWorld Js.Undefined) !! uploadDir = Some Dir /\
  startup Js.Undefined (disk (freshWorld Js.Undefined)) [] 0
  = Some (freshWorld Js.Undefined) /\
  startup Js.Undefined (<["/tmp" := File []]> ∅) [] 0 = None.
Proof.
  destruct (X1_startup_upload_dir Js.Undefined ∅ [] 0) as [Hok _].
  destruct (Hok (freshWorld Js.Undefined) (startup_fresh_world _))
    as (_ & _ & Hagain).
  split; [apply startup_fresh_world|].
  split; [vm_compute; reflexivity|].
  split; [exact Hagain|].
  apply (X1_startup_upload_dir Js.Undefined (<["/tmp" := File []]> ∅) [] 0).
  split; [vm_compute; reflexivity|].
  exists []. vm_compute. reflexivity.
Defined.

(** ** Generated names do not collide by accident *)

Section NameCollisions.

Lemma digits_then_dash a b x y :
  allDigits a -> allDigits b ->
  a +:+ "-" +:+ x = b +:+ "-" +:+ y -> a = b /\ x = y.
Proof.
  unfold allDigits. revert b.
  induction a as [|c a IH]; intros [|c' b] Ha Hb E; cbn in Ha, Hb.
  - change (String "-" x = String "-" y) in E. injection E as <-. auto.
  - change (String "-" x = String c' (b +:+ "-" +:+ y)) in E.
    injection E as <- _. discriminate Hb.
  - change (String c (a +:+ "-" +:+ x) = String "-" y) in E.
    injection E as -> _. discriminate Ha.
  - change (String c (a +:+ "-" +:+ x) = String c' (b +:+ "-" +:+ y)) in E.
    injection E as <- E.
    apply orb_false_iff in Ha as [_ Ha]. apply orb_false_iff in Hb as [_ Hb].
    destruct (IH b Ha Hb E) as [-> ->]. auto.
Qed.

Lemma string_of_uint_digits d : allDigits (NilEmpty.string_of_uint d).
Proof. unfold allDigits. induction d; cbn; auto. Qed.

(** A printed integer: an optional sign, then at least one digit. *)
Lemma numberToString_shape z :
  exists (negative : bool) c ds,
    Js.numberToString z
    = (if negative then "-" else "") +:+ String c ds /\
    isDigit c = true /\ allDigits ds.
Proof.
  unfold Js.numberToString, NilZero.string_of_int, NilZero.string_of_uint.
  destruct (Z.to_int z) as [d|d]; [exists false | exists true];
    destruct d; cbn [NilEmpty.string_of_uint];
    eexists _, _; (split; [reflexivity|]); split;
    try reflexivity; try apply string_of_uint_digits.
Qed.

Lemma int_of_string_of_int d :
  exists d', NilZero.int_of_string (NilZero.string_of_int d) = Some d' /\
             Z.of_int d' = Z.of_int d.
Proof.
  destruct d as [[]|[]];
    try (eexists; split; [apply NilZero.isi; discriminate | reflexivity]);
    eexists; split; reflexivity.
Qed.

Lemma numberToString_inj z1 z2 :
  Js.numberToString z1 = Js.numberToString z2 -> z1 = z2.
Proof.
  unfold Js.numberToString. intros E.
  destruct (int_of_string_of_int (Z.to_int z1)) as (d1 & H1 & E1).
  destruct (int_of_string_of_int (Z.to_int z2)) as (d2 & H2 & E2).
  rewrite E, H2 in H1. injection H1 as <-.
  rewrite <- (DecimalZ.of_to z1), <- (DecimalZ.of_to z2). congruence.
Qed.

Lemma append_cancel_l a x y : a +:+ x = a +:+ y -> x = y.
Proof.
  induction a as [|c a IH]; [auto|].
  change (String c (a +:+ x) = String c (a +:+ y) -> x = y).
  intros [= E]. apply IH, E.
Qed.

Lemma generatedName_inj o1 o2 p1 p2 :
  generatedName o1 p1 = generatedName o2 p2 ->
  now o1 = now o2 /\ originalname p1 = originalname p2.
Proof.
  unfold generatedName. intros E.
  destruct (numberToString_shape (now o1)) as (n1 & c1 & ds1 & E1 & Hc1 & Hd1).
  destruct (numberToString_shape (now o2)) as (n2 & c2 & ds2 & E2 & Hc2 & Hd2).
  assert (Hnum : Js.numberToString (now o1) = Js.numberToString (now o2)
                 /\ originalname p1 = originalname p2).
  { rewrite E1, E2 in *.
    destruct n1, n2.
    - change (String "-" (String c1 (ds1 +:+ "-" +:+ originalname p1))
              = String "-" (String c2 (ds2 +:+ "-" +:+ originalname p2))) in E.
      injection E as -> Es.
      destruct (digits_then_dash _ _ _ _ Hd1 Hd2 Es) as [-> ->]. auto.
    - change (String "-" (String c1 ds1 +:+ "-" +:+ originalname p1)
              = String c2 (ds2 +:+ "-" +:+ originalname p2)) in E.
      injection E as <- _. discriminate Hc2.
    - change (String c1 (ds1 +:+ "-" +:+ originalname p1)
              = String "-" (String c2 ds2 +:+ "-" +:+ originalname p2)) in E.
      injection E as -> _. discriminate Hc1.
    - change (String c1 (ds1 +:+ "-" +:+ originalname p1)
              = String c2 (ds2 +:+ "-" +:+ originalname p2)) in E.
      injection E as -> Es.
      destruct (digits_then_dash _ _ _ _ Hd1 Hd2 Es) as [-> ->]. auto. }
  destruct Hnum as [Hn Ho]. split; [apply numberToString_inj, Hn | exact Ho].
Qed.

End NameCollisions.

(** X2.  Two uploaded files are stored at the same path only when they
    carry the same time stamp and the same original name: the generated
    name determines both, and for base names so does the path. *)
Theorem X2_stored_paths_differ :
  forall o1 o2 p1 p2,
    baseName (originalname p1) -> baseName (originalname p2) ->
    Path.join [uploadDir; generatedName o1 p1]
    = Path.join [uploadDir; generatedName o2 p2] ->
    now o1 = now o2 /\ originalname p1 = originalname p2.
Proof.
  intros o1 o2 p1 p2 H1 H2 E.
  rewrite (stored_path o1 p1 H1), (stored_path o2 p2 H2) in E.
  apply append_cancel_l in E.
  apply generatedName_inj, E.
Qed.

Lemma X2_stored_paths_differ_witness :
  baseName (originalname notes) /\
  Path.join [uploadDir; generatedName (calm 100) notes]
  = Path.join [uploadDir; generatedName (unlinkRefused 100) notes] /\
  now (calm 100) = now (unlinkRefused 100).
Proof.
  split; [reflexivity|]. split; [reflexivity|].
  exact (proj1 (X2_stored_paths_differ (calm 100) (unlinkRefused 100) notes notes
                  eq_refl eq_refl eq_refl)).
Defined.

(** ** Uploads, state included *)

Section UploadState.

Variable o : outcome.
Variable fields : formFields.

(** The state after an upload that was answered with 201. *)
Lemma upload_created_state part w w' r :
  app o (PostUpload fields part) w = (w', inr r) ->
  status r = 201 ->
  let doc := uploaded o fields part (idCounter w) in
  r = mkResponse 201 (JsonAnswer doc) /\
  (exists db, cachedDb w' = Some db) /\
  MONGO_URI w' = MONGO_URI w /\
  disk w' = stored o part (disk w) /\
  collection w' = (collection w ++ [doc])%list /\
  idCounter w' = N.succ (idCounter w) /\
  unlinked (trace w') = unlinked (trace w).
Proof.
  intros H Hst.
  destruct (connectToDatabase o w) as [w1 [e|db]] eqn:E.
  - rewrite (app_refused _ _ _ _ _ E) in H.
    injection H as <- <-. discriminate Hst.
  - rewrite (app_connected _ _ _ _ _ E) in H. cbn [route] in H.
    destruct (connect_frame _ _ _ _ E) as (Hu & Hd & Hc & Hi).
    pose proof (connect_unlinked _ _ _ _ E) as Hl.
    pose proof (connect_ok_cached _ _ _ _ E) as Hdb.
    destruct (postUpload_cases o fields part w1)
      as [[_ E']|[(_ & Es & E')|(err & _ & _ & E')]];
      rewrite E' in H; injection H as <- <-; try discriminate Hst.
    cbv zeta. proj_simpl. rewrite Hu, Hd, Hc, Hi. eauto 10.
Qed.

(** The answer and the state when [save] rejects. *)
Lemma upload_rejected part w w1 db err :
  connectToDatabase o w = (w1, inr db) ->
  multerOk o part (disk w) = true ->
  saveError o = Some err ->
  app o (PostUpload fields part) w
  = (mkWorld (MONGO_URI w) (Some db) (stored o part (disk w)) (collection w)
             (N.succ (idCounter w)) (trace w1),
     inr (mkResponse 500 (JsonMessage "Error uploading answer" (Some err)))).
Proof.
  intros E Hm Es. rewrite (app_connected _ _ _ _ _ E). cbn [route].
  destruct (connect_frame _ _ _ _ E) as (Hu & Hd & Hc & Hi).
  rewrite postUpload_eq, Hd, Hm, Es. cbv zeta.
  rewrite (connect_ok_cached _ _ _ _ E), Hu, Hc, Hi. reflexivity.
Qed.

End UploadState.

(** X3.  Two uploads in the same millisecond of files with the same
    original name collide: both are answered with 201 and create two
    records with different identifiers but the same [fileName] and
    [filePath], and the disk holds the payload of the second upload
    there; the first payload is overwritten. *)
Theorem X3_same_name_same_millisecond_overwrites :
  forall o1 o2 f1 f2 p1 p2 w w1 w2 r1 r2,
    now o1 = now o2 ->
    originalname p1 = originalname p2 ->
    app o1 (PostUpload f1 (Some p1)) w = (w1, inr r1) -> status r1 = 201 ->
    app o2 (PostUpload f2 (Some p2)) w1 = (w2, inr r2) -> status r2 = 201 ->
    exists d1 d2,
      payloadOf r1 = JsonAnswer d1 /\ payloadOf r2 = JsonAnswer d2 /\
      _id d1 <> _id d2 /\
      fileName d1 = fileName d2 /\ filePath d1 = filePath d2 /\
      In d1 (collection w2) /\ In d2 (collection w2) /\
      disk w2 !! Js.text (filePath d1) = Some (File (payload p2)).
Proof.
  intros o1 o2 f1 f2 p1 p2 w w1 w2 r1 r2 Hnow Hname H1 Hs1 H2 Hs2.
  destruct (upload_created_state _ _ _ _ _ _ H1 Hs1)
    as (-> & _ & _ & Hd1 & Hc1 & Hi1 & _).
  destruct (upload_created_state _ _ _ _ _ _ H2 Hs2)
    as (-> & _ & _ & Hd2 & Hc2 & Hi2 & _).
  assert (Hgen : generatedName o1 p1 = generatedName o2 p2)
    by (unfold generatedName; congruence).
  eexists _, _. split; [reflexivity|]. split; [reflexivity|].
  cbn [uploaded _id fileName filePath Js.text]. rewrite Hgen.
  repeat split.
  - rewrite Hi1. lia.
  - rewrite Hc2, Hc1. apply in_or_app. left. apply in_or_app. right.
    left. reflexivity.
  - rewrite Hc2. apply in_or_app. right. left. reflexivity.
  - rewrite Hd2. cbn [stored]. apply lookup_insert_eq.
Qed.

Lemma X3_same_name_same_millisecond_overwrites_witness :
  exists d1 d2,
    snd (serveAll
           [ (calm 100, PostUpload (sampleFields "2024-01-01") (Some notes));
             (calm 100, PostUpload (sampleFields "2024-02-01")
                          (Some (mkFilePart "a.txt" "text/plain" [x62; x79; x65]))) ]
           (freshWorld (Js.Str sampleUri)))
    = [ Some (mkResponse 201 (JsonAnswer d1));
        Some (mkResponse 201 (JsonAnswer d2)) ] /\
    filePath d1 = filePath d2 /\ _id d1 <> _id d2.
Proof.
  set (second := mkFilePart "a.txt" "text/plain" [x62; x79; x65]).
  set (w := freshWorld (Js.Str sampleUri)).
  set (w1 := fst (app (calm 100)
                    (PostUpload (sampleFields "2024-01-01") (Some notes)) w)).
  set (doc2 := mkAnswer 1 (Js.Str "Essay") (Js.Str "100-a.txt")
                 (Js.Str "/tmp/uploads/100-a.txt") (Js.Str "Discuss.")
                 (Js.Str "2024-02-01") (Js.Str "GS2") (Js.Str "mock")
                 (Js.Str "text/plain")).
  assert (H1 : app (calm 100)
                 (PostUpload (sampleFields "2024-01-01") (Some notes)) w
               = (w1, inr (mkResponse 201 (JsonAnswer docA))))
    by (vm_compute; reflexivity).
  assert (H2 : app (calm 100)
                 (PostUpload (sampleFields "2024-02-01") (Some second)) w1
               = (fst (app (calm 100)
                         (PostUpload (sampleFields "2024-02-01") (Some second))
                         w1),
                  inr (mkResponse 201 (JsonAnswer doc2))))
    by (vm_compute; reflexivity).
  destruct (X3_same_name_same_millisecond_overwrites
              (calm 100) (calm 100) _ _ notes second w w1 _ _ _
              eq_refl eq_refl H1 eq_refl H2 eq_refl)
    as (d1 & d2 & Hp1 & Hp2 & Hid & _ & Hpath & _).
  cbn [payloadOf] in Hp1, Hp2. injection Hp1 as <-. injection Hp2 as <-.
  exists docA, doc2. split; [vm_compute; reflexivity|].
  split; [exact Hpath | exact Hid].
Defined.

(** X4.  When Multer has stored the file of an upload and the store
    then rejects the document, the answer is 500 with the store's
    message, no record is added, and the file Multer has written stays
    on disk: the handler does not remove it. *)
Theorem X4_rejected_upload_leaves_file :
  forall o fields part w w1 db err,
    connectToDatabase o w = (w1, inr db) ->
    multerOk o (Some part) (disk w) = true ->
    saveError o = Some err ->
    exists w',
      app o (PostUpload fields (Some part)) w
      = (w', inr (mkResponse 500
                    (JsonMessage "Error uploading answer" (Some err)))) /\
      collection w' = collection w /\
      disk w' !! Path.join [uploadDir; generatedName o part]
      = Some (File (payload part)) /\
      unlinked (trace w') = unlinked (trace w).
Proof.
  intros o fields part w w1 db err E Hm Es.
  eexists.
  split; [apply (upload_rejected o fields (Some part) w w1 db err E Hm Es)|].
  proj_simpl. split; [reflexivity|]. split.
  - cbn [stored]. apply lookup_insert_eq.
  - apply (connect_unlinked _ _ _ _ E).
Qed.

Lemma X4_rejected_upload_leaves_file_witness :
  connectToDatabase (storeFull 200) busyWorld = (busyWorld, inr 1) /\
  multerOk (storeFull 200) (Some notes) (disk busyWorld) = true /\
  saveError (storeFull 200) = Some "quota exceeded" /\
  exists w',
    app (storeFull 200) (PostUpload (sampleFields "2024-03-01") (Some notes))
        busyWorld
    = (w', inr (mkResponse 500
                  (JsonMessage "Error uploading answer" (Some "quota exceeded")))) /\
    collection w' = [docA; docB] /\
    disk w' !! "/tmp/uploads/200-a.txt" = Some (File [x68; x69]).
Proof.
  assert (Hm : multerOk (storeFull 200) (Some notes) (disk busyWorld) = true)
    by (vm_compute; reflexivity).
  split; [reflexivity|]. split; [exact Hm|]. split; [reflexivity|].
  destruct (X4_rejected_upload_leaves_file (storeFull 200)
              (sampleFields "2024-03-01") notes busyWorld busyWorld 1
              "quota exceeded" eq_refl Hm eq_refl)
    as (w' & H & Hc & Hd & _).
  exists w'. split; [exact H|]. split; [exact Hc | exact Hd].
Defined.

(** X5.  A request that arrives while the store cannot be reached is
    answered with 500 and the driver's message and reaches no handler:
    nothing is written to the disk (an upload's file included), no
    record is added or removed and no identifier is used up.  Nothing is
    cached either. *)
Theorem X5_unreachable_store_stores_nothing :
  forall o req w err,
    cachedDb w = None ->
    Js.truthy (MONGO_URI w) = true ->
    connectResult o = inl err ->
    exists w',
      app o req w
      = (w', inr (mkResponse 500
                    (JsonMessage "Database connection failed" (Some err)))) /\
      disk w' = disk w /\ collection w' = collection w /\
      idCounter w' = idCounter w /\ cachedDb w' = None /\
      attempts (trace w') = S (attempts (trace w)) /\
      established (trace w') = established (trace w).
Proof.
  intros o req w err Hc Hu He.
  assert (E : exists w1, connectToDatabase o w = (w1, inl err) /\
                         attempts (trace w1) = S (attempts (trace w)) /\
                         established (trace w1) = established (trace w)).
  { io_unfold. rewrite Hc. cbv beta. rewrite Hu. cbn [negb]. cbv beta iota.
    rewrite He. cbv beta iota. proj_simpl.
    eexists. split; [reflexivity|]. proj_simpl.
    rewrite !attempts_app, !established_app. cbn. lia. }
  destruct E as (w1 & E & Ha & Hest).
  exists w1. split; [apply app_refused, E|].
  destruct (connect_frame _ _ _ _ E) as (_ & Hd & Hcol & Hi).
  destruct (connect_fail_uncached _ _ _ _ E) as [_ Hn]. auto 10.
Qed.

Lemma X5_unreachable_store_stores_nothing_witness :
  cachedDb (freshWorld (Js.Str sampleUri)) = None /\
  Js.truthy (MONGO_URI (freshWorld (Js.Str sampleUri))) = true /\
  connectResult (storeDown 100) = inl "ECONNREFUSED" /\
  exists w',
    app (storeDown 100) (PostUpload (sampleFields "2024-01-01") (Some notes))
        (freshWorld (Js.Str sampleUri))
    = (w', inr (mkResponse 500
                  (JsonMessage "Database connection failed"
                     (Some "ECONNREFUSED")))) /\
    disk w' = bareDisk /\ collection w' = [].
Proof.
  split; [reflexivity|]. split; [reflexivity|]. split; [reflexivity|].
  destruct (X5_unreachable_store_stores_nothing (storeDown 100)
              (PostUpload (sampleFields "2024-01-01") (Some notes))
              (freshWorld (Js.Str sampleUri)) "ECONNREFUSED"
              eq_refl eq_refl eq_refl)
    as (w' & H & Hd & Hc & _).
  exists w'. auto.
Defined.

(** X6.  The list route and the serve-file route only read: whatever
    the connection and the store do, they leave the disk, the
    collection and the identifier counter as they are and never call
    [fs.unlink]. *)
Theorem X6_read_routes_change_nothing :
  forall o req w w' r,
    (req = GetAnswers \/ exists fileName, req = GetUpload fileName) ->
    app o req w = (w', r) ->
    disk w' = disk w /\ collection w' = collection w /\
    idCounter w' = idCounter w /\
    unlinked (trace w') = unlinked (trace w).
Proof.
  intros o req w w' r Hreq H.
  destruct (app_route o req w)
    as (w1 & (_ & Hd & Hc & Hi) & Hu & [E|(e & E & _)]);
    rewrite E in H; [|injection H as <- _; auto].
  destruct Hreq as [->|[fileName ->]]; cbn [route] in H.
  - rewrite getAnswers_eq in H. destruct (findError o); injection H as <- _; auto.
  - destruct (getUpload_responds fileName w1) as [resp E']. rewrite E' in H.
    injection H as <- _. auto.
Qed.

Lemma X6_read_routes_change_nothing_witness :
  (GetUpload "100-a.txt" = GetAnswers \/
   exists fileName, GetUpload "100-a.txt" = GetUpload fileName) /\
  disk (fst (app (calm 103) (GetUpload "100-a.txt") busyWorld)) = disk busyWorld /\
  collection (fst (app (calm 103) (GetUpload "100-a.txt") busyWorld))
  = [docA; docB].
Proof.
  assert (Hreq : GetUpload "100-a.txt" = GetAnswers \/
                 exists fileName, GetUpload "100-a.txt" = GetUpload fileName)
    by (right; exists "100-a.txt"; reflexivity).
  split; [exact Hreq|].
  destruct (X6_read_routes_change_nothing (calm 103) (GetUpload "100-a.txt")
              busyWorld
              (fst (app (calm 103) (GetUpload "100-a.txt") busyWorld))
              (snd (app (calm 103) (GetUpload "100-a.txt") busyWorld))
              Hreq (surjective_pairing _))
    as (Hd & Hc & _).
  split; [exact Hd | exact Hc].
Defined.

(** X7.  What was uploaded is listed: after an upload was answered with
    201, a listing whose query does not fail returns one record more
    than there were before, the created record among them, and that
    record carries the form fields exactly as they were sent (an absent
    field stays absent, nothing is defaulted). *)
Theorem X7_uploaded_record_is_listed :
  forall o fields part w w1 r o',
    app o (PostUpload fields part) w = (w1, inr r) ->
    status r = 201 ->
    findError o' = None ->
    exists doc docs,
      payloadOf r = JsonAnswer doc /\
      app o' GetAnswers w1 = (w1, inr (mkResponse 200 (JsonAnswers docs))) /\
      In doc docs /\
      List.length docs = S (List.length (collection w)) /\
      title doc = f_title fields /\ question doc = f_question fields /\
      uploadDate doc = f_uploadDate fields /\
      gsPaper doc = f_gsPaper fields /\ source doc = f_source fields.
Proof.
  intros o fields part w w1 r o' H Hst Ef.
  destruct (upload_created_state _ _ _ _ _ _ H Hst)
    as (-> & [db Hdb] & _ & _ & Hc & _).
  exists (uploaded o fields part (idCounter w)),
         (merge_sort newerFirst (collection w1)).
  split; [reflexivity|]. split.
  - rewrite (app_connected _ _ _ _ _ (connect_cached o' w1 db Hdb)).
    cbn [route]. rewrite getAnswers_eq, Ef. reflexivity.
  - pose proof (merge_sort_Permutation newerFirst (collection w1)) as Hp.
    split.
    + apply (Permutation_in _ (Permutation_sym Hp)).
      rewrite Hc. apply in_or_app. right. left. reflexivity.
    + split; [|destruct part; cbn; auto].
      rewrite (Permutation_length Hp), Hc, List.length_app. cbn. lia.
Qed.

Lemma X7_uploaded_record_is_listed_witness :
  exists doc docs,
    snd (app (calm 101) (PostUpload (sampleFields "2024-03-01") None) busyWorld)
    = inr (mkResponse 201 (JsonAnswer doc)) /\
    snd (app (calm 102) GetAnswers
           (fst (app (calm 101) (PostUpload (sampleFields "2024-03-01") None)
                   busyWorld)))
    = inr (mkResponse 200 (JsonAnswers docs)) /\
    In doc docs /\ List.length docs = 3 /\
    uploadDate doc = Js.Str "2024-03-01".
Proof.
  set (doc3 := mkAnswer 2 (Js.Str "Essay") Js.Null Js.Null (Js.Str "Discuss.")
                 (Js.Str "2024-03-01") (Js.Str "GS2") (Js.Str "mock") Js.Null).
  set (w1 := fst (app (calm 101) (PostUpload (sampleFields "2024-03-01") None)
                    busyWorld)).
  assert (H : app (calm 101) (PostUpload (sampleFields "2024-03-01") None)
                busyWorld
              = (w1, inr (mkResponse 201 (JsonAnswer doc3))))
    by (vm_compute; reflexivity).
  destruct (X7_uploaded_record_is_listed _ _ _ _ _ _ (calm 102) H eq_refl eq_refl)
    as (doc & docs & Hp & Hl & Hin & Hlen & _ & _ & Hdate & _).
  cbn [payloadOf] in Hp. injection Hp as <-.
  exists doc3, docs. rewrite H, Hl. auto.
Defined.

(** ** Deleting, state included *)

Section DeleteFacts.

Lemma normalize_nonempty p : Path.normalize p <> "".
Proof.
  unfold Path.normalize.
  destruct (String.eqb p ""); [discriminate|].
  destruct (String.eqb _ "") eqn:E.
  - destruct (Path.isAbsolute p); [discriminate|].
    destruct (Path.endsWithSep p); discriminate.
  - apply String.eqb_neq in E.
    destruct (Path.isAbsolute p); [discriminate|].
    destruct (Path.endsWithSep p); [|exact E].
    destruct (Path.unsplit _); [congruence | discriminate].
Qed.

(** [path.join] never returns the empty string. *)
Lemma join_nonempty args : Path.join args <> "".
Proof.
  unfold Path.join. destruct (List.filter _ args); [discriminate|].
  apply normalize_nonempty.
Qed.

Lemma join_truthy args : Js.truthy (Js.Str (Path.join args)) = true.
Proof.
  cbn [Js.truthy]. apply negb_true_iff, String.eqb_neq, join_nonempty.
Qed.

Lemma find_fresh id doc docs :
  (forall a, In a docs -> _id a <> id) -> _id doc = id ->
  List.find (hasId id) (docs ++ [doc]) = Some doc /\
  removeFirst id (docs ++ [doc]) = docs.
Proof.
  intros Hfresh Hid. induction docs as [|a docs IH]; cbn.
  - unfold hasId. rewrite Hid, N.eqb_refl. auto.
  - assert (Ha : hasId id a = false).
    { unfold hasId. apply N.eqb_neq, Hfresh. left. reflexivity. }
    rewrite Ha. destruct IH as [IH1 IH2].
    + intros b Hb. apply Hfresh. right. exact Hb.
    + rewrite IH1, IH2. auto.
Qed.

Lemma removeFirst_gone id docs :
  NoDup (List.map _id docs) -> List.find (hasId id) (removeFirst id docs) = None.
Proof.
  induction docs as [|a docs IH]; [reflexivity|].
  cbn [List.map removeFirst]. intros Hnd.
  apply NoDup_cons in Hnd as [Hnotin Hnd].
  destruct (hasId id a) eqn:Ha.
  - apply find_none_iff. intros b Hb Hid.
    apply N.eqb_eq in Ha. apply Hnotin.
    apply list_elem_of_In, in_map_iff. exists b. split; [congruence | exact Hb].
  - cbn [List.find]. rewrite Ha. apply IH, Hnd.
Qed.

(** What a 200 of the delete route means. *)
Lemma delete_done o id w w' r :
  app o (DeleteAnswer id) w = (w', inr r) ->
  status r = 200 ->
  exists db a,
    cachedDb w' = Some db /\
    List.find (hasId id) (collection w) = Some a /\
    collection w' = removeFirst id (collection w) /\
    r = mkResponse 200 (JsonMessage "Answer deleted successfully" None).
Proof.
  intros H Hst.
  destruct (connectToDatabase o w) as [w1 [e|db]] eqn:E.
  - rewrite (app_refused _ _ _ _ _ E) in H. injection H as <- <-.
    discriminate Hst.
  - rewrite (app_connected _ _ _ _ _ E) in H. cbn [route] in H.
    destruct (connect_frame _ _ _ _ E) as (_ & _ & Hc & _).
    pose proof (connect_ok_cached _ _ _ _ E) as Hdb.
    destruct (findError o) as [err|] eqn:Ef.
    + destruct (deleteAnswer_response o id w1) as [w2 H2].
      rewrite Ef, H in H2. injection H2 as _ ->. discriminate Hst.
    + destruct (List.find (hasId id) (collection w1)) as [a|] eqn:Hf.
      * rewrite (deleteAnswer_found o id a w1 Ef Hf) in H. cbv zeta in H.
        pose proof (cleanUp_frame o a w1) as (_ & Hcd & _ & _).
        destruct (deleteError o); injection H as <- <-; [discriminate Hst|].
        exists db, a. proj_simpl. rewrite Hcd, <- Hc. auto.
      * rewrite deleteAnswer_missing, Ef in H by exact Hf.
        injection H as _ <-. discriminate Hst.
Qed.

End DeleteFacts.

(** X8.  Deleting what was just uploaded undoes the upload: when the
    identifier is fresh and nothing was stored at the path before, an
    upload with a file answered with 201 followed by the deletion of the
    created record (lookup, [fs.unlink] and deletion all working) is
    answered with 200 and leaves the collection and the disk as they
    were before the upload. *)
Theorem X8_delete_undoes_upload :
  forall o fields part w w1 r o',
    (forall a, In a (collection w) -> _id a <> idCounter w) ->
    disk w !! Path.join [uploadDir; generatedName o part] = None ->
    app o (PostUpload fields (Some part)) w = (w1, inr r) ->
    status r = 201 ->
    findError o' = None -> unlinkError o' = None -> deleteError o' = None ->
    exists doc w2,
      payloadOf r = JsonAnswer doc /\
      app o' (DeleteAnswer (_id doc)) w1
      = (w2, inr (mkResponse 200
                    (JsonMessage "Answer deleted successfully" None))) /\
      collection w2 = collection w /\ disk w2 = disk w.
Proof.
  intros o fields part w w1 r o' Hfresh Hfree H Hst Ef Eu Ed.
  destruct (upload_created_state _ _ _ _ _ _ H Hst)
    as (-> & [db Hdb] & _ & Hd & Hc & _).
  set (doc := uploaded o fields (Some part) (idCounter w)) in *.
  destruct (find_fresh (idCounter w) doc (collection w) Hfresh eq_refl)
    as [Hfind Hrem].
  exists doc. eexists. split; [reflexivity|].
  rewrite (app_connected _ _ _ _ _ (connect_cached o' w1 db Hdb)).
  cbn [route]. change (_id doc) with (idCounter w).
  rewrite <- Hc in Hfind, Hrem.
  rewrite (deleteAnswer_found o' _ doc w1 Ef Hfind), Ed. cbv zeta.
  split; [reflexivity|]. proj_simpl. split; [exact Hrem|].
  rewrite cleanUp_disk. unfold doc. cbn [uploaded filePath Js.text].
  rewrite join_truthy, Hd. cbn [stored].
  rewrite lookup_insert_eq, Eu. apply delete_insert_id, Hfree.
Qed.

Lemma X8_delete_undoes_upload_witness :
  exists doc w2,
    snd (app (calm 300) (PostUpload (sampleFields "2024-03-01") (Some notes))
           busyWorld)
    = inr (mkResponse 201 (JsonAnswer doc)) /\
    app (calm 301) (DeleteAnswer (_id doc))
        (fst (app (calm 300) (PostUpload (sampleFields "2024-03-01") (Some notes))
                busyWorld))
    = (w2, inr (mkResponse 200
                  (JsonMessage "Answer deleted successfully" None))) /\
    collection w2 = [docA; docB] /\ disk w2 = disk busyWorld.
Proof.
  set (doc3 := mkAnswer 2 (Js.Str "Essay") (Js.Str "300-a.txt")
                 (Js.Str "/tmp/uploads/300-a.txt") (Js.Str "Discuss.")
                 (Js.Str "2024-03-01") (Js.Str "GS2") (Js.Str "mock")
                 (Js.Str "application/pdf")).
  set (w1 := fst (app (calm 300)
                    (PostUpload (sampleFields "2024-03-01") (Some notes))
                    busyWorld)).
  assert (H : app (calm 300) (PostUpload (sampleFields "2024-03-01") (Some notes))
                busyWorld
              = (w1, inr (mkResponse 201 (JsonAnswer doc3))))
    by (vm_compute; reflexivity).
  assert (Hfresh : forall a, In a (collection busyWorld) ->
                             _id a <> idCounter busyWorld).
  { intros a [<-|[<-|[]]]; discriminate. }
  assert (Hfree : disk busyWorld
                    !! Path.join [uploadDir; generatedName (calm 300) notes]
                  = None)
    by (vm_compute; reflexivity).
  destruct (X8_delete_undoes_upload _ _ _ _ _ _ (calm 301) Hfresh Hfree H
              eq_refl eq_refl eq_refl eq_refl)
    as (doc & w2 & Hp & Hdel & Hc & Hd).
  cbn [payloadOf] in Hp. injection Hp as <-.
  exists doc3, w2. rewrite H. auto.
Defined.

(** X9.  A record can be deleted once: when the identifiers in the
    collection are distinct and a delete request was answered with 200,
    a second delete request for the same identifier whose lookup does
    not fail is answered with 404 and changes nothing. *)
Theorem X9_second_delete_is_not_found :
  forall o1 o2 id w w1 r1,
    NoDup (List.map _id (collection w)) ->
    app o1 (DeleteAnswer id) w = (w1, inr r1) ->
    status r1 = 200 ->
    findError o2 = None ->
    app o2 (DeleteAnswer id) w1
    = (w1, inr (mkResponse 404 (SentString "Answer not found"))).
Proof.
  intros o1 o2 id w w1 r1 Hnd H Hst Ef.
  destruct (delete_done _ _ _ _ _ H Hst) as (db & a & Hdb & _ & Hc & _).
  rewrite (app_connected _ _ _ _ _ (connect_cached o2 w1 db Hdb)). cbn [route].
  rewrite deleteAnswer_missing, Ef; [reflexivity|].
  rewrite Hc. apply removeFirst_gone, Hnd.
Qed.

Lemma X9_second_delete_is_not_found_witness :
  NoDup (List.map _id (collection busyWorld)) /\
  snd (serveAll [(calm 400, DeleteAnswer 0); (calm 401, DeleteAnswer 0)]
         busyWorld)
  = [ Some (mkResponse 200 (JsonMessage "Answer deleted successfully" None));
      Some (mkResponse 404 (SentString "Answer not found")) ].
Proof.
  assert (Hnd : NoDup (List.map _id (collection busyWorld))).
  { cbn. apply NoDup_cons. split; [|apply NoDup_singleton].
    rewrite list_elem_of_In. intros [E|[]]. discriminate E. }
  split; [exact Hnd|].
  assert (H : app (calm 400) (DeleteAnswer 0) busyWorld
              = (fst (app (calm 400) (DeleteAnswer 0) busyWorld),
                 inr (mkResponse 200
                        (JsonMessage "Answer deleted successfully" None))))
    by (vm_compute; reflexivity).
  pose proof (X9_second_delete_is_not_found (calm 400) (calm 401) 0 busyWorld
                _ _ Hnd H eq_refl eq_refl) as H2.
  cbn [serveAll]. rewrite H, H2. reflexivity.
Defined.

(** X10.  Record and file are not deleted together: when the file of
    the record is on disk, [fs.unlink] works and the store then rejects
    the deletion, the answer is 500 with the store's message, the record
    is still in the collection and its file is gone. *)
Theorem X10_failed_delete_loses_the_file :
  forall o id w w1 db a content err,
    connectToDatabase o w = (w1, inr db) ->
    findError o = None ->
    List.find (hasId id) (collection w) = Some a ->
    Js.truthy (filePath a) = true ->
    disk w !! Js.text (filePath a) = Some (File content) ->
    unlinkError o = None ->
    deleteError o = Some err ->
    exists w',
      app o (DeleteAnswer id) w
      = (w', inr (mkResponse 500
                    (JsonMessage "Error deleting answer" (Some err)))) /\
      collection w' = collection w /\
      List.find (hasId id) (collection w') = Some a /\
      disk w' !! Js.text (filePath a) = None.
Proof.
  intros o id w w1 db a content err E Ef Hfind Ht Hfile Eu Ed.
  destruct (connect_frame _ _ _ _ E) as (_ & Hd & Hc & _).
  rewrite (app_connected _ _ _ _ _ E). cbn [route].
  rewrite <- Hc in Hfind.
  rewrite (deleteAnswer_found o id a w1 Ef Hfind), Ed. cbv zeta.
  eexists. split; [reflexivity|].
  pose proof (cleanUp_frame o a w1) as (_ & _ & Hcc & _).
  rewrite Hcc, Hc. split; [reflexivity|]. split; [congruence|].
  rewrite cleanUp_disk, Ht, Hd, Hfile, Eu. apply lookup_delete_eq.
Qed.

Lemma X10_failed_delete_loses_the_file_witness :
  connectToDatabase (deleteRejected 500) busyWorld = (busyWorld, inr 1) /\
  List.find (hasId 0) (collection busyWorld) = Some docA /\
  disk busyWorld !! Js.text (filePath docA) = Some (File [x68; x69]) /\
  exists w',
    app (deleteRejected 500) (DeleteAnswer 0) busyWorld
    = (w', inr (mkResponse 500
                  (JsonMessage "Error deleting answer" (Some "write conflict")))) /\
    collection w' = [docA; docB] /\
    disk w' !! "/tmp/uploads/100-a.txt" = None.
Proof.
  assert (Hfile : disk busyWorld !! Js.text (filePath docA)
                  = Some (File [x68; x69]))
    by (vm_compute; reflexivity).
  split; [reflexivity|]. split; [reflexivity|]. split; [exact Hfile|].
  destruct (X10_failed_delete_loses_the_file (deleteRejected 500) 0 busyWorld
              busyWorld 1 docA [x68; x69] "write conflict"
              eq_refl eq_refl eq_refl eq_refl Hfile eq_refl eq_refl)
    as (w' & H & Hc & _ & Hd).
  exists w'. auto.
Defined.

(** ** Answers *)

Section Answers.

Lemma getUpload_status fileName w w' resp :
  getUpload fileName w = (w', inr resp) ->
  (status resp = 200 \/ status resp = 400 \/ status resp = 403 \/
   status resp = 404) /\
  isJson (payloadOf resp) = false.
Proof.
  io_unfold. intros H. repeat case_match; simplify_eq; cbn; auto 10.
Qed.

(** What a route handler answers. *)
Lemma route_answers o req w w' r :
  route o req w = (w', inr r) ->
  match req with
  | GetAnswers =>
      (exists docs, r = mkResponse 200 (JsonAnswers docs)) \/
      (exists err, findError o = Some err /\
         r = mkResponse 500 (JsonMessage "Error fetching answers" (Some err)))
  | PostUpload _ part =>
      (exists doc, r = mkResponse 201 (JsonAnswer doc)) \/
      (exists err, saveError o = Some err /\
         r = mkResponse 500 (JsonMessage "Error uploading answer" (Some err))) \/
      (multerOk o part (disk w) = false /\ r = mkResponse 500 ErrorPage)
  | DeleteAnswer _ =>
      r = mkResponse 200 (JsonMessage "Answer deleted successfully" None) \/
      r = mkResponse 404 (SentString "Answer not found") \/
      (exists err, (findError o = Some err \/ deleteError o = Some err) /\
         r = mkResponse 500 (JsonMessage "Error deleting answer" (Some err)))
  | GetUpload _ =>
      (status r = 200 \/ status r = 400 \/ status r = 403 \/ status r = 404) /\
      isJson (payloadOf r) = false
  end.
Proof.
  destruct req as [|fields part|id|fileName]; cbn [route]; intros H.
  - rewrite getAnswers_eq in H.
    destruct (findError o); injection H as _ <-; eauto.
  - destruct (postUpload_cases o fields part w)
      as [[Hm E']|[(_ & Es & E')|(err & _ & Es & E')]];
      rewrite E' in H; injection H as _ <-.
    + right. right. split; [exact Hm|reflexivity].
    + left. eexists. reflexivity.
    + right. left. exists err. split; [exact Es|reflexivity].
  - destruct (deleteAnswer_response o id w) as [w2 H2]. rewrite H in H2.
    injection H2 as _ ->.
    destruct (findError o); [eauto 10|].
    destruct (List.find (hasId id) (collection w)); [|auto].
    destruct (deleteError o); eauto 10.
  - apply (getUpload_status _ _ _ _ H).
Qed.

End Answers.



(** X12.  The cached handle is never dropped and never checked: once a
    handle is cached, every later request, whatever the store does and
    even when a new connection attempt would fail, finds it, reaches
    its route handler (no answer is the refusal of the connection
    middleware) and causes no call of [mongoose.connect]. *)
Theorem X12_cached_handle_is_kept :
  forall db reqs w,
    cachedDb w = Some db ->
    cachedDb (fst (serveAll reqs w)) = Some db /\
    attempts (trace (fst (serveAll reqs w))) = attempts (trace w) /\
    Forall (fun answer =>
              exists r, answer = Some r /\
                forall err, payloadOf r
                            <> JsonMessage "Database connection failed" (Some err))
           (snd (serveAll reqs w)).
Proof.
  intros db reqs. induction reqs as [|[o req] reqs IH]; intros w Hdb.
  - cbn. auto.
  - cbn [serveAll].
    destruct (app o req w) as [w1 r] eqn:E.
    rewrite (app_connected _ _ _ _ _ (connect_cached o w db Hdb)) in E.
    destruct (route_frame _ _ _ _ _ E) as (Hc & _ & Ha).
    rewrite Hdb in Hc. specialize (IH w1 Hc).
    destruct (serveAll reqs w1) as [w2 rs]. cbn [fst snd] in *.
    destruct IH as (IH1 & IH2 & IH3).
    split; [exact IH1|]. split; [congruence|].
    constructor; [|exact IH3].
    destruct (route_responds o req w) as (w1' & resp & E').
    rewrite E' in E. injection E as <- <-.
    exists resp. split; [reflexivity|]. intros err Hp.
    apply route_answers in E'.
    destruct req as [|fields part|id|fileName].
    + destruct E' as [[docs ->]|(e & _ & ->)]; discriminate Hp.
    + destruct E' as [[doc ->]|[(e & _ & ->)|[_ ->]]]; discriminate Hp.
    + destruct E' as [->|[->|(e & _ & ->)]]; discriminate Hp.
    + destruct E' as [_ E']. rewrite Hp in E'. discriminate E'.
Qed.

Lemma X12_cached_handle_is_kept_witness :
  cachedDb busyWorld = Some 1 /\
  cachedDb (fst (serveAll [(storeDown 600, GetAnswers);
                           (storeDown 601, DeleteAnswer 1)] busyWorld))
  = Some 1 /\
  attempts (trace (fst (serveAll [(storeDown 600, GetAnswers);
                                  (storeDown 601, DeleteAnswer 1)] busyWorld)))
  = 0.
Proof.
  split; [reflexivity|].
  destruct (X12_cached_handle_is_kept 1
              [(storeDown 600, GetAnswers); (storeDown 601, DeleteAnswer 1)]
              busyWorld eq_refl) as (Hc & Ha & _).
  split; [exact Hc | exact Ha].
Defined.

(** ** Listing and insertion order *)

Section ListingOrder.

Lemma newerFirst_antisym docs a b :
  datedApart docs -> In a docs -> In b docs ->
  newerFirst a b -> newerFirst b a -> a = b.
Proof.
  intros [Hdated Hapart] Ha Hb Hab Hba.
  apply Hapart; [exact Ha | exact Hb |].
  destruct (Hdated a Ha) as [x Hx]. destruct (Hdated b Hb) as [y Hy].
  unfold newerFirst in *. rewrite Hx, Hy in *. cbn in Hab, Hba.
  f_equal. apply String.leb_antisym; assumption.
Qed.

Lemma sorted_listing_unique docs docs' :
  datedApart docs -> docs' ≡ₚ docs ->
  merge_sort newerFirst docs' = merge_sort newerFirst docs.
Proof.
  intros Hda Hperm.
  apply (StronglySorted_unique_strong newerFirst).
  - intros a b Ha Hb. apply (newerFirst_antisym docs); [exact Hda | | ].
    + apply list_elem_of_In.
      rewrite <- Hperm, <- (merge_sort_Permutation newerFirst docs'). exact Ha.
    + apply list_elem_of_In.
      rewrite <- (merge_sort_Permutation newerFirst docs). exact Hb.
  - apply (StronglySorted_merge_sort newerFirst).
  - apply (StronglySorted_merge_sort newerFirst).
  - rewrite !merge_sort_Permutation. exact Hperm.
Qed.

End ListingOrder.

(** X13.  When every stored record carries a date and no two records
    the same one, the listing does not depend on the order in which the
    records were stored: two processes whose collections hold the same
    records answer the list request with the same body. *)
Theorem X13_listing_ignores_insertion_order :
  forall o o' w w' w1 w1' db db',
    connectToDatabase o w = (w1, inr db) ->
    connectToDatabase o' w' = (w1', inr db') ->
    findError o = None -> findError o' = None ->
    datedApart (collection w) ->
    collection w' ≡ₚ collection w ->
    snd (app o' GetAnswers w') = snd (app o GetAnswers w).
Proof.
  intros o o' w w' w1 w1' db db' E E' Ef Ef' Hda Hperm.
  destruct (connect_frame _ _ _ _ E) as (_ & _ & Hc & _).
  destruct (connect_frame _ _ _ _ E') as (_ & _ & Hc' & _).
  rewrite (app_connected _ _ _ _ _ E), (app_connected _ _ _ _ _ E').
  cbn [route]. rewrite !getAnswers_eq, Ef, Ef', Hc, Hc'. cbn [snd].
  rewrite (sorted_listing_unique _ _ Hda Hperm). reflexivity.
Qed.

Lemma X13_listing_ignores_insertion_order_witness :
  datedApart (collection busyWorld) /\
  collection busyWorldReversed ≡ₚ collection busyWorld /\
  snd (app (calm 700) GetAnswers busyWorldReversed)
  = snd (app (calm 701) GetAnswers busyWorld).
Proof.
  assert (Hda : datedApart (collection busyWorld)).
  { split.
    - intros a [<-|[<-|[]]]; eexists; reflexivity.
    - intros a b [<-|[<-|[]]] [<-|[<-|[]]]; try reflexivity; discriminate. }
  assert (Hperm : collection busyWorldReversed ≡ₚ collection busyWorld)
    by apply Permutation_swap.
  split; [exact Hda|]. split; [exact Hperm|].
  exact (X13_listing_ignores_insertion_order (calm 701) (calm 700)
           busyWorld busyWorldReversed busyWorld busyWorldReversed 1 1
           eq_refl eq_refl eq_refl eq_refl Hda Hperm).
Defined.

(** ** Invariants of the collection *)

Section CollectionInvariants.

Lemma uploaded_consistent o fields part id :
  fileConsistent (uploaded o fields part id).
Proof.
  destruct part as [p|]; [right | left]; cbn; eauto.
Qed.

Lemma removeFirst_incl id docs a :
  In a (removeFirst id docs) -> In a docs.
Proof.
  induction docs as [|b docs IH]; cbn; [auto|].
  destruct (hasId id b); [auto|]. intros [->|H]; auto.
Qed.

Lemma app_fileConsistent o req w w' r :
  app o req w = (w', r) ->
  (forall a, In a (collection w) -> fileConsistent a) ->
  forall a, In a (collection w') -> fileConsistent a.
Proof.
  intros H Hinv a Ha.
  destruct (app_collection o req w w' r H)
    as [Hc|[(fields & part & _ & _ & _ & Hc & _)|(id & _ & _ & Hc)]];
    rewrite Hc in Ha.
  - apply Hinv, Ha.
  - apply in_app_or in Ha as [Ha|[<-|[]]];
      [apply Hinv, Ha | apply uploaded_consistent].
  - apply Hinv, (removeFirst_incl _ _ _ Ha).
Qed.

End CollectionInvariants.

(** X14.  The file attributes of the records stay consistent: if every
    stored record either has [fileName], [filePath] and [mimeType] all
    null or has all three as strings with [filePath] the join of the
    upload directory and [fileName], the same holds after any sequence
    of requests, whatever the connection and the store do. *)
Theorem X14_file_attributes_stay_consistent :
  forall reqs w,
    (forall a, In a (collection w) -> fileConsistent a) ->
    forall a, In a (collection (fst (serveAll reqs w))) -> fileConsistent a.
Proof.
  induction reqs as [|[o req] reqs IH]; intros w Hinv; [exact Hinv|].
  cbn [serveAll]. destruct (app o req w) as [w1 r] eqn:E.
  specialize (IH w1 (app_fileConsistent _ _ _ _ _ E Hinv)).
  destruct (serveAll reqs w1) as [w2 rs]. exact IH.
Qed.

Lemma X14_file_attributes_stay_consistent_witness :
  (forall a, In a (collection (freshWorld (Js.Str sampleUri))) ->
             fileConsistent a) /\
  fileConsistent docA /\ fileConsistent docB.
Proof.
  assert (Hinv : forall a, In a (collection (freshWorld (Js.Str sampleUri))) ->
                           fileConsistent a) by (intros a []).
  split; [exact Hinv|].
  pose proof (X14_file_attributes_stay_consistent
                [ (calm 100, PostUpload (sampleFields "2024-01-01") (Some notes));
                  (calm 101, PostUpload (sampleFields "2024-02-01") None) ]
                (freshWorld (Js.Str sampleUri)) Hinv) as H.
  rewrite busyWorld_reached in H. cbn [collection] in H.
  split; apply H; [left | right; left]; reflexivity.
Defined.

(** X15.  A request changes the disk at one path at most, and only in
    two ways: an upload with a file part puts its payload at the
    generated path, and a delete request removes the file at the
    [filePath] of the record it found.  Nothing else is ever written or
    removed: the list and serve-file routes, uploads without a file and
    refused requests leave every entry as it is. *)
Theorem X15_disk_changes_of_a_request :
  forall o req w w' r p,
    app o req w = (w', r) ->
    disk w' !! p <> disk w !! p ->
    (exists fields part,
        req = PostUpload fields (Some part) /\
        p = Path.join [uploadDir; generatedName o part] /\
        disk w' !! p = Some (File (payload part))) \/
    (exists id a content,
        req = DeleteAnswer id /\
        List.find (hasId id) (collection w) = Some a /\
        filePath a = Js.Str p /\
        disk w !! p = Some (File content) /\ disk w' !! p = None).
Proof.
  intros o req w w' r p H Hp.
  destruct (app_disk o req w w' r H)
    as [Hd|[(fields & part & -> & Hd)|(id & a & content & -> & Hf & Ht & Hl & Hd)]];
    rewrite Hd in Hp |- *.
  - congruence.
  - left. exists fields, part. cbn [stored] in *.
    destruct (decide (Path.join [uploadDir; generatedName o part] = p)) as [<-|Hne].
    + rewrite lookup_insert_eq. auto.
    + rewrite lookup_insert_ne in Hp by exact Hne. congruence.
  - right. exists id, a, content.
    destruct (decide (Js.text (filePath a) = p)) as [<-|Hne].
    + rewrite lookup_delete_eq. repeat split; auto.
      destruct (filePath a); try discriminate Ht. reflexivity.
    + rewrite lookup_delete_ne in Hp by exact Hne. congruence.
Qed.

Lemma X15_disk_changes_of_a_request_witness :
  disk (fst (app (calm 400) (DeleteAnswer 0) busyWorld))
    !! "/tmp/uploads/100-a.txt"
  <> disk busyWorld !! "/tmp/uploads/100-a.txt" /\
  exists a, List.find (hasId 0) (collection busyWorld) = Some a /\
            filePath a = Js.Str "/tmp/uploads/100-a.txt".
Proof.
  assert (Hp : disk (fst (app (calm 400) (DeleteAnswer 0) busyWorld))
                 !! "/tmp/uploads/100-a.txt"
               <> disk busyWorld !! "/tmp/uploads/100-a.txt")
    by (vm_compute; discriminate).
  split; [exact Hp|].
  destruct (X15_disk_changes_of_a_request (calm 400) (DeleteAnswer 0) busyWorld
              _ _ "/tmp/uploads/100-a.txt" (surjective_pairing _) Hp)
    as [(fields & part & Hreq & _)|(id & a & content & Hreq & Hf & Hpath & _)].
  - discriminate Hreq.
  - injection Hreq as <-. exists a. auto.
Defined.

(** X16.  A deleted record's file is no longer served: when the record
    points at its file under the upload directory, the file is there,
    and lookup, [fs.unlink] and deletion all work, the delete request is
    answered with 200 and every later request for the record's
    [fileName] is answered with the 404 of the serve-file route. *)
Theorem X16_deleted_file_is_not_served :
  forall o id w w1 db a name content o',
    connectToDatabase o w = (w1, inr db) ->
    findError o = None -> unlinkError o = None -> deleteError o = None ->
    List.find (hasId id) (collection w) = Some a ->
    fileName a = Js.Str name ->
    filePath a = Js.Str (Path.join [uploadDir; name]) ->
    disk w !! Path.join [uploadDir; name] = Some (File content) ->
    exists w2,
      app o (DeleteAnswer id) w
      = (w2, inr (mkResponse 200
                    (JsonMessage "Answer deleted successfully" None))) /\
      app o' (GetUpload name) w2
      = (w2, inr (mkResponse 404 (SentString
           "File not found. It may have been cleared from temporary storage."))).
Proof.
  intros o id w w1 db a name content o' E Ef Eu Ed Hfind Hname Hpath Hfile.
  destruct (connect_frame _ _ _ _ E) as (_ & Hd & Hc & _).
  pose proof (connect_ok_cached _ _ _ _ E) as Hdb.
  rewrite (app_connected _ _ _ _ _ E). cbn [route].
  rewrite <- Hc in Hfind.
  rewrite (deleteAnswer_found o id a w1 Ef Hfind), Ed. cbv zeta.
  eexists. split; [reflexivity|].
  pose proof (cleanUp_frame o a w1) as (_ & Hcc & _ & _).
  erewrite app_connected;
    [|apply (connect_cached o' _ db); proj_simpl; congruence].
  cbn [route]. apply getUpload_absent. proj_simpl.
  rewrite cleanUp_disk, Hpath, join_truthy. cbn [Js.text].
  rewrite Hd, Hfile, Eu. apply lookup_delete_eq.
Qed.

Lemma X16_deleted_file_is_not_served_witness :
  List.find (hasId 0) (collection busyWorld) = Some docA /\
  filePath docA = Js.Str (Path.join [uploadDir; "100-a.txt"]) /\
  snd (serveAll [(calm 400, DeleteAnswer 0); (calm 401, GetUpload "100-a.txt")]
         busyWorld)
  = [ Some (mkResponse 200 (JsonMessage "Answer deleted successfully" None));
      Some (mkResponse 404 (SentString
        "File not found. It may have been cleared from temporary storage.")) ].
Proof.
  split; [reflexivity|]. split; [reflexivity|].
  assert (Hfile : disk busyWorld !! Path.join [uploadDir; "100-a.txt"]
                  = Some (File [x68; x69])) by (vm_compute; reflexivity).
  destruct (X16_deleted_file_is_not_served (calm 400) 0 busyWorld busyWorld 1
              docA "100-a.txt" [x68; x69] (calm 401)
              eq_refl eq_refl eq_refl eq_refl eq_refl eq_refl eq_refl Hfile)
    as (w2 & H1 & H2).
  cbn [serveAll]. rewrite H1, H2. reflexivity.
Defined.

(** X17.  The guard of line 73 makes loading the module repeatable.
    Evaluating it never throws and leaves a model registered as
    [Answer]; every later load of the module, which brings a schema
    object of its own, gets that same model and leaves the registry as
    it is, whereas an unguarded [mongoose.model("Answer", ...)] of such
    a later load would throw. *)
Theorem X17_model_registration_is_repeatable :
  forall n models,
    exists model,
      snd (AnswerModel n models) = inr model /\
      fst (AnswerModel n models) !! "Answer" = Some model /\
      (forall n',
          AnswerModel n' (fst (AnswerModel n models))
          = (fst (AnswerModel n models), inr model)) /\
      (forall n',
          models !! "Answer" = None -> n' <> n ->
          snd (mongooseModel "Answer" (answerSchema n')
                 (fst (AnswerModel n models)))
          = inl "OverwriteModelError").
Proof.
  intros n models.
  destruct (models !! "Answer") as [m|] eqn:E.
  - assert (H : AnswerModel n models = (models, inr m))
      by (unfold AnswerModel; rewrite E; reflexivity).
    rewrite H. cbn [fst snd]. exists m.
    split; [reflexivity|]. split; [exact E|].
    split; [intros n'; unfold AnswerModel; rewrite E; reflexivity|].
    discriminate.
  - assert (H : AnswerModel n models
                = (<["Answer" := answerSchema n]> models, inr (answerSchema n)))
      by (unfold AnswerModel, mongooseModel; rewrite E; reflexivity).
    rewrite H. cbn [fst snd]. exists (answerSchema n).
    split; [reflexivity|]. split; [apply lookup_insert_eq|].
    split.
    + intros n'. unfold AnswerModel. rewrite lookup_insert_eq. reflexivity.
    + intros n' _ Hn. unfold mongooseModel. rewrite lookup_insert_eq.
      cbn [schemaId answerSchema fst snd].
      destruct (Nat.eqb_spec n n') as [->|_]; [contradiction | reflexivity].
Qed.

Lemma X17_model_registration_is_repeatable_witness :
  AnswerModel 2 (fst (AnswerModel 1 ∅))
  = (fst (AnswerModel 1 ∅), inr (answerSchema 1)) /\
  snd (mongooseModel "Answer" (answerSchema 2) (fst (AnswerModel 1 ∅)))
  = inl "OverwriteModelError".
Proof.
  destruct (X17_model_registration_is_repeatable 1 ∅)
    as (model & Hm & _ & Hagain & Hthrow).
  assert (model = answerSchema 1) as ->.
  { assert (H : snd (AnswerModel 1 ∅) = inr (answerSchema 1))
      by (vm_compute; reflexivity).
    congruence. }
  split; [apply Hagain|].
  apply Hthrow; [vm_compute; reflexivity | discriminate].
Defined.

(** ** Identifiers *)

Section Identifiers.

Lemma removeFirst_ids id docs x :
  In x (List.map _id (removeFirst id docs)) -> In x (List.map _id docs).
Proof.
  rewrite !in_map_iff. intros (a & Ha & Hin).
  exists a. split; [exact Ha | apply (removeFirst_incl _ _ _ Hin)].
Qed.

Lemma removeFirst_NoDup id docs :
  NoDup (List.map _id docs) -> NoDup (List.map _id (removeFirst id docs)).
Proof.
  induction docs as [|a docs IH]; cbn [List.map removeFirst]; [auto|].
  intros Hnd. apply NoDup_cons in Hnd as [Hnotin Hnd].
  destruct (hasId id a); [exact Hnd|].
  cbn [List.map]. apply NoDup_cons. split; [|apply IH, Hnd].
  intros Hin. apply Hnotin.
  apply list_elem_of_In, (removeFirst_ids id), list_elem_of_In, Hin.
Qed.

(** Identifiers stay distinct, and below the next fresh one, over every
    request. *)
Lemma app_distinctIds o req w w' r :
  app o req w = (w', r) -> distinctIds w -> distinctIds w'.
Proof.
  intros H [Hnd Hlt]. unfold distinctIds.
  assert (Hi : (idCounter w <= idCounter w')%N)
    by (destruct (app_idCounter o req w w' r H) as [Hi|(f & p & _ & Hi)]; lia).
  destruct (app_collection o req w w' r H)
    as [Hc|[(fields & part & _ & _ & _ & Hc & Hi')|(id & _ & _ & Hc)]];
    rewrite Hc.
  - split; [exact Hnd|]. intros a Ha. specialize (Hlt a Ha). lia.
  - split.
    + rewrite List.map_app. cbn [List.map]. apply NoDup_app.
      split; [exact Hnd|]. split; [|apply NoDup_singleton].
      intros x Hx Hx'. apply list_elem_of_In in Hx.
      apply in_map_iff in Hx as (a & <- & Ha). specialize (Hlt a Ha).
      apply list_elem_of_In in Hx'. destruct Hx' as [Hx'|[]].
      destruct part; cbn in Hx'; lia.
    + intros a Ha. apply in_app_or in Ha as [Ha|[<-|[]]].
      * specialize (Hlt a Ha). lia.
      * destruct part; cbn; lia.
  - split; [apply removeFirst_NoDup, Hnd|].
    intros a Ha. specialize (Hlt a (removeFirst_incl _ _ _ Ha)). lia.
Qed.

Lemma serveAll_distinctIds reqs w :
  distinctIds w -> distinctIds (fst (serveAll reqs w)).
Proof.
  revert w. induction reqs as [|[o req] reqs IH]; intros w Hinv; [exact Hinv|].
  cbn [serveAll]. destruct (app o req w) as [w1 r] eqn:E.
  specialize (IH w1 (app_distinctIds _ _ _ _ _ E Hinv)).
  destruct (serveAll reqs w1) as [w2 rs]. exact IH.
Qed.

End Identifiers.
